(** * Keystone telemetry: a shallow embedding of the telemetry reporter

    The repository holds five historical versions of [sendTelemetryEvent]
    together with [deviceInfo] and the import-time disable logic.  Each
    version is embedded below in a module of its own, over one model of the
    JavaScript values, objects and effects the code uses:

    - [process.env] is a finite map from variable names to strings;
    - object literals are association lists in insertion order;
    - a computation reads and writes [process.env], records every call to
      the outside world (machine id, OS, git, [console.log], [fetch]) in a
      trace, and completes normally or by throwing;
    - the outside world itself ([machineIdSync], [os], [crypto], [fetch],
      [JSON.stringify], [conf], [child_process]) is a record of oracles.

    index.ts holds five files one after the other: [sendTelemetryEvent]
    (module [Index]), deviceInfo.ts, two legacy versions (modules [Legacy]
    and [LegacyLists]) and a test; part_000 holds two more versions
    (modules [V1] and [Keystone]); part_001 is the test of the legacy
    versions.  projectInfo.ts is in none of them. *)

From Stdlib Require Import ZArith String Ascii List Bool Lia.
From stdpp Require Import base option gmap strings pretty.

Import ListNotations.
Local Open Scope string_scope.
Local Open Scope Z_scope.
Local Open Scope list_scope.

(** ** JavaScript values *)

#[local] Set Warnings "-register-all".

Inductive value : Type :=
| VUndefined
| VNull
| VBool (b : bool)
| VNum (n : Z)
| VStr (s : string)
| VArr (items : list value)
| VObj (props : list (string * value)).

(** An object literal: own enumerable string keys in insertion order. *)
Abbreviation obj := (list (string * value)).

(** [ToBoolean] on the values above. *)
Definition truthy (v : value) : bool :=
  match v with
  | VUndefined | VNull => false
  | VBool b => b
  | VNum n => negb (n =? 0)
  | VStr s => negb (String.eqb s "")
  | VArr _ | VObj _ => true
  end.

(** A value of TypeScript type [string | undefined], such as
    [process.env.X] or an optional string parameter. *)
Definition of_opt (o : option string) : value :=
  match o with
  | Some s => VStr s
  | None => VUndefined
  end.

Definition truthy_str (o : option string) : bool :=
  match o with
  | Some s => negb (String.eqb s "")
  | None => false
  end.

(** [a || b] on [string | undefined]. *)
Definition js_or (a b : option string) : option string :=
  if truthy_str a then a else b.

Infix "|||" := js_or (at level 50, left associativity).

(** [a || d] where [d] is a string constant. *)
Definition or_default (a : option string) (d : string) : string :=
  match a with
  | Some s => if String.eqb s "" then d else s
  | None => d
  end.

(** ** Objects *)

Fixpoint obj_get (k : string) (o : obj) : option value :=
  match o with
  | [] => None
  | (k', v) :: rest => if String.eqb k k' then Some v else obj_get k rest
  end.

(** [o[k] = v]: an existing key keeps its position, a new key goes last. *)
Fixpoint obj_set (k : string) (v : value) (o : obj) : obj :=
  match o with
  | [] => [(k, v)]
  | (k', v') :: rest =>
      if String.eqb k k' then (k, v) :: rest else (k', v') :: obj_set k v rest
  end.

(** [{ ...target, ...source }]: the properties of [source] are set on
    [target] one by one, in order. *)
Definition obj_spread (target source : obj) : obj :=
  fold_left (fun acc kv => obj_set (fst kv) (snd kv) acc) source target.

(** ** Strings *)

(** [s.indexOf(c)] for a one-character needle: the position of the first
    occurrence, or -1. *)
Fixpoint indexOf (c : ascii) (s : string) : Z :=
  match s with
  | EmptyString => -1
  | String a rest =>
      if Ascii.eqb a c then 0
      else let i := indexOf c rest in if i <? 0 then -1 else i + 1
  end.

(** [s.substring(0, n)] for [0 <= n]. *)
Definition substring0 (n : Z) (s : string) : string :=
  String.substring 0 (Z.to_nat n) s.

(** ** Effects *)

Record RequestInit := {
  method : string;
  headers : list (string * string);
  body : string
}.

(** What a call leaves behind in the outside world. *)
Inductive event : Type :=
| EvMachineIdSync
| EvOsPlatform
| EvOsRelease
| EvExecSync (cwd : string)
| EvRequire (path : string)
| EvConsoleLog (args : list value)
| EvFetch (url : string) (init : RequestInit)
| EvUnhandledRejection (reason : value).

Inductive completion (A : Type) : Type :=
| Normal (a : A)
| Throw (e : value).
Arguments Normal {A} a.
Arguments Throw {A} e.

(** How a promise settles. *)
Inductive settled : Type :=
| Fulfilled (v : value)
| Rejected (reason : value).

Abbreviation Env := (gmap string string).

(** A computation: from the environment to a completion, the environment
    it leaves, and the calls it made, oldest first. *)
Definition M (A : Type) : Type := Env -> completion A * Env * list event.

Definition ret {A} (a : A) : M A := fun env => (Normal a, env, []).

Definition throw {A} (e : value) : M A := fun env => (Throw e, env, []).

Definition bind {A B} (m : M A) (k : A -> M B) : M B :=
  fun env =>
    match m env with
    | (Normal a, env1, t1) =>
        match k a env1 with
        | (r, env2, t2) => (r, env2, t1 ++ t2)
        end
    | (Throw e, env1, t1) => (Throw e, env1, t1)
    end.

Notation "x <- m ;; k" := (bind m (fun x => k))
  (at level 100, m at next level, right associativity).
Notation "m ;;; k" := (bind m (fun _ => k))
  (at level 100, right associativity).

(** [try { body } catch (err) { handler err }] *)
Definition try_catch {A} (body : M A) (handler : value -> M A) : M A :=
  fun env =>
    match body env with
    | (Normal a, env1, t1) => (Normal a, env1, t1)
    | (Throw e, env1, t1) =>
        match handler e env1 with
        | (r, env2, t2) => (r, env2, t1 ++ t2)
        end
    end.

(** A call to the outside world: it is recorded, and completes as the
    oracle says. *)
Definition perform {A} (ev : event) (r : completion A) : M A :=
  fun env => (r, env, [ev]).

(** [process.env[k]] *)
Definition getenv (k : string) : M (option string) :=
  fun env => (Normal (env !! k), env, []).

(** [process.env[k] = v] *)
Definition setenv (k v : string) : M unit :=
  fun env => (Normal tt, <[k := v]> env, []).

Definition get_env : M Env := fun env => (Normal env, env, []).

(** [console.log(...args)] *)
Definition console_log (args : list value) : M unit :=
  perform (EvConsoleLog args) (Normal tt).

Definition result {A} (r : completion A * Env * list event) : completion A :=
  fst (fst r).
Definition env_after {A} (r : completion A * Env * list event) : Env :=
  snd (fst r).
Definition trace {A} (r : completion A * Env * list event) : list event :=
  snd r.

(** ** Promises *)

(** [p.then(onFulfilled, onRejected)], each handler optional. *)
Definition promise_then (onFulfilled onRejected : option (value -> completion value))
    (p : settled) : settled :=
  match p with
  | Fulfilled v =>
      match onFulfilled with
      | None => Fulfilled v
      | Some f => match f v with Normal r => Fulfilled r | Throw e => Rejected e end
      end
  | Rejected e =>
      match onRejected with
      | None => Rejected e
      | Some g => match g e with Normal r => Fulfilled r | Throw e' => Rejected e' end
      end
  end.

(** [p.catch(onRejected)] *)
Definition promise_catch (onRejected : value -> completion value) (p : settled) : settled :=
  promise_then None (Some onRejected) p.

(** [() => {}] *)
Definition noop (_ : value) : completion value := Normal VUndefined.

(** A promise that is dropped: a rejection nobody handles becomes an
    [unhandledRejection] of the process, never an exception of the caller. *)
Definition forget (p : settled) : M unit :=
  match p with
  | Fulfilled _ => ret tt
  | Rejected e => perform (EvUnhandledRejection e) (Normal tt)
  end.

(** ** The outside world *)

Record Runtime := {
  (** [machineIdSync()] of node-machine-id *)
  machineIdSync : completion string;
  (** [os.platform()], [os.release()] *)
  os_platform : completion string;
  os_release : completion string;
  (** [process.version] *)
  process_version : string;
  (** [createHash('sha256').update(text).digest('hex')] *)
  sha256_hex : string -> string;
  (** [JSON.stringify(value)] *)
  JSON_stringify : value -> completion string;
  (** [fetch(url, init)] of node-fetch: throws, or returns a promise *)
  fetch : string -> RequestInit -> completion settled;
  (** [defaults.telemetryEndpoint] of ../config/defaults *)
  defaults_telemetryEndpoint : string;
  (** [new Conf()] of conf: opens the preference store of the user, and
      throws when the store cannot be located or read *)
  new_Conf : completion unit;
  (** [userConfig.get(key)]: reads the store *)
  conf_get : string -> completion value;
  (** the output of the git command that prints the remote origin URL,
      run in a directory *)
  execSync_gitOrigin : string -> completion string;
  (** the dependencies of the package manifest found at a path *)
  require_dependencies : string -> completion (list (string * string));
  (** the framework packages whose versions are reported *)
  knownPackages : list string
}.

(** [x === s] for [x : string | undefined] and a string literal [s]. *)
Definition strict_eq (x : option string) (s : string) : bool :=
  match x with
  | Some v => String.eqb v s
  | None => false
  end.

(** A completion of a pure library call, inside a computation. *)
Definition lift {A} (r : completion A) : M A := fun env => (r, env, []).

(** [ListSchemaConfig]: list keys, each with the keys of its [fields]. *)
Abbreviation ListSchemaConfig := (list (string * list string)).

(** [Object.keys(lists)] *)
Definition obj_keys_of {A} (lists : list (string * A)) : list string := map fst lists.

(** The first value stored under a name in an association list. *)
Fixpoint assoc_lookup {A} (k : string) (l : list (string * A)) : option A :=
  match l with
  | [] => None
  | (k', v) :: rest => if String.eqb k k' then Some v else assoc_lookup k rest
  end.

(** ** String helpers of the origin normalisation

    projectInfo.ts is not among the sources: the normalisation of the git
    origin is modelled from section 4.3 of the spec, with the helpers
    below. *)

(** The line feed, character 10. *)
Definition newline : ascii := Ascii.ascii_of_nat 10.

(** Modelled from the spec: [stripping a trailing newline] of the output of
    git, whose source is missing.  Drops one line feed at the end of the
    text, if there is one. *)
Fixpoint stripTrailingNewline (s : string) : string :=
  match s with
  | EmptyString => EmptyString
  | String c EmptyString => if Ascii.eqb c newline then EmptyString else s
  | String c rest => String c (stripTrailingNewline rest)
  end.

(** Modelled from the spec: stripping a [protocol prefix] of the missing
    normalisation.  [Some rest] when [s] is [p] followed by [rest]. *)
Fixpoint strip_prefix (p s : string) : option string :=
  match p, s with
  | EmptyString, _ => Some s
  | String a p', String b s' => if Ascii.eqb a b then strip_prefix p' s' else None
  | String _ _, EmptyString => None
  end.

(** Modelled from the spec: the missing normalisation brings [host:path]
    to [host/path].  Replaces the first [a] of the text by [b]. *)
Fixpoint replace_first (a b : ascii) (s : string) : string :=
  match s with
  | EmptyString => EmptyString
  | String c rest => if Ascii.eqb c a then String b rest else String c (replace_first a b rest)
  end.

(** Modelled from the spec: the [optional user@] of the missing
    normalisation.  What follows the first ["@"] of the authority (the
    text before the first ["/"]), when it has one. *)
Fixpoint after_userinfo (s : string) : option string :=
  match s with
  | EmptyString => None
  | String c rest =>
      if Ascii.eqb c "@" then Some rest
      else if Ascii.eqb c "/" then None
      else after_userinfo rest
  end.

(** Modelled from the spec: the missing normalisation drops an optional
    [user@]. *)
Definition strip_user (s : string) : string :=
  match after_userinfo s with
  | Some rest => rest
  | None => s
  end.

Section Collectors.

Context (rt : Runtime).

(** ** deviceInfo.ts (index.ts, second file) *)

(** [locale], lines 51-62, with [process.env] as its argument. *)
Definition locale (env : Env) : value :=
  let localeWithEncoding :=
    env !! "LC_ALL" ||| env !! "LC_MESSAGES" ||| env !! "LANG" ||| env !! "LANGUAGE"
      ||| env !! "LC_NAME" in
  if negb (truthy_str localeWithEncoding) then VNull
  else
    match localeWithEncoding with
    | None => VNull
    | Some localeWithEncoding =>
        let encodingIndex := indexOf "." localeWithEncoding in
        VStr (if encodingIndex >? -1
              then substring0 encodingIndex localeWithEncoding
              else localeWithEncoding)
    end.

(** [deviceInfo], lines 64-73. *)
Definition deviceInfo : M obj :=
  deviceHash <- perform EvMachineIdSync (machineIdSync rt) ;;
  os <- perform EvOsPlatform (os_platform rt) ;;
  osVersion <- perform EvOsRelease (os_release rt) ;;
  env <- get_env ;;
  ret [ ("deviceHash", VStr deviceHash);
        ("os", VStr os);
        ("osVersion", VStr osVersion);
        ("nodeVersion", VStr (process_version rt));
        ("locale", locale env) ].

(** ** hashText (index.ts, third file, lines 80-82) *)

Definition hashText (text : string) : string := sha256_hex rt text.

(** ** projectInfo.ts *)

(** Modelled from the spec: projectInfo.ts is not among the sources; only
    its callers and its tests are.  Section 4.3 of the spec: the remote
    origin URL loses a trailing newline and its credentials/protocol prefix
    ([git@], [https://], [http://], an optional [user@]) down to
    [host/path]. *)
Definition normalizeGitOrigin (origin : string) : string :=
  match strip_prefix "git@" origin with
  | Some rest => replace_first ":" "/" rest
  | None =>
      match strip_prefix "https://" origin with
      | Some rest => strip_user rest
      | None =>
          match strip_prefix "http://" origin with
          | Some rest => strip_user rest
          | None => origin
          end
      end
  end.

(** Modelled from the spec: the git origin hash of section 4.3, whose
    source is missing, as a function of what git printed: an empty output
    gives [null], anything else the hash of the normalised URL. *)
Definition originHash (originBuffer : string) : value :=
  let origin := stripTrailingNewline originBuffer in
  if String.eqb origin "" then VNull
  else VStr (hashText (normalizeGitOrigin origin)).

(** Modelled from the spec: the missing call of git of section 4.3.  The
    git command is run in [cwd]; when it fails the hash is [null], and
    nothing is raised. *)
Definition gitOriginHash (cwd : string) : M value :=
  try_catch
    (originBuffer <- perform (EvExecSync cwd) (execSync_gitOrigin rt cwd) ;;
     ret (originHash originBuffer))
    (fun _ => ret VNull).

(** Modelled from the spec: the schema summary of section 4.3, whose
    source is missing: the number of fields of each declared list (the
    aggregate the tests expect). *)
Definition fieldCounts (lists : option ListSchemaConfig) : value :=
  match lists with
  | None => VArr []
  | Some lists => VArr (map (fun l => VNum (Z.of_nat (length (snd l)))) lists)
  end.

(** Modelled from the spec: the package versions of section 4.3, whose
    source is missing: the known framework packages with the version the
    manifest gives them; a package the manifest does not list is left out. *)
Definition packageVersions (dependencies : list (string * string)) : value :=
  VObj (omap (fun name =>
                match assoc_lookup name dependencies with
                | Some version => Some (name, VStr version)
                | None => None
                end) (knownPackages rt)).

(** Modelled from the spec: the missing lookup of the package versions.
    The manifest is the one of [cwd]; when it cannot be read no package is
    reported, and nothing is raised. *)
Definition keystonePackages (cwd : string) : M value :=
  try_catch
    (dependencies <- perform (EvRequire (cwd +:+ "/package.json"))
                       (require_dependencies rt (cwd +:+ "/package.json")) ;;
     ret (packageVersions dependencies))
    (fun _ => ret (VObj [])).

(** Modelled from the spec: the project fingerprint of section 4.3, the
    missing [projectInfo], with the schema summary as one field. *)
Definition projectInfoWith (schemaField : string * value) (cwd : string) : M obj :=
  origin <- gitOriginHash cwd ;;
  packages <- keystonePackages cwd ;;
  ret (obj_set "keystonePackages" packages
         (obj_set (fst schemaField) (snd schemaField)
            [ ("gitOriginHash", origin);
              ("pathHash", VStr (hashText cwd)) ])).

(** Modelled from the spec: the missing [projectInfo(cwd, lists)] of the
    versions of part_000, with the field names of the tests. *)
Definition projectInfo (cwd : string) (lists : option ListSchemaConfig) : M obj :=
  projectInfoWith ("fieldCounts", fieldCounts lists) cwd.

End Collectors.

(** [{ method: 'POST', headers: { 'Content-Type': 'application/json' }, body }] *)
Definition postJson (body : string) : RequestInit :=
  {| method := "POST";
     headers := [("Content-Type", "application/json")];
     body := body |}.

(** [{ ...device, ...project, dbProvider, eventType }] *)
Definition mergeEventData (device project : obj) (dbProvider : option string)
    (eventType : string) : obj :=
  obj_set "eventType" (VStr eventType)
    (obj_set "dbProvider" (of_opt dbProvider)
       (obj_spread (obj_spread [] device) project)).

(** ** part_000, second file: the [KEYSTONE_]-prefixed version *)
Module Keystone.
Section Keystone.

Context (rt : Runtime).

(** [const userConfig = new Conf()], line 55. *)
Definition userConfig : M unit := lift (new_Conf rt).

(** [const userTelemetryDisabled = userConfig.get('telemetry.disabled')],
    line 56. *)
Definition userTelemetryDisabled : M value := lift (conf_get rt "telemetry.disabled").

(** The statements the module runs when it is imported, lines 55-67.  An
    exception of line 55 or 56 ends the import there. *)
Definition moduleInit : M unit :=
  userConfig ;;;
  userTelemetryDisabled <- userTelemetryDisabled ;;
  (if truthy userTelemetryDisabled
   then setenv "KEYSTONE_TELEMETRY_DISABLED" "1"
   else ret tt) ;;;
  disabled <- getenv "KEYSTONE_TELEMETRY_DISABLED" ;;
  if strict_eq disabled "1"
  then setenv "NEXT_TELEMETRY_DISABLED" "1" ;;; setenv "CHECKPOINT_DISABLE" "1"
  else ret tt.

(** [sendTelemetryEvent], lines 69-112. *)
Definition sendTelemetryEvent (eventType cwd : string) (dbProvider : option string)
    (lists : option ListSchemaConfig) : M unit :=
  try_catch
    (disabled <- getenv "KEYSTONE_TELEMETRY_DISABLED" ;;
     if strict_eq disabled "1" then ret tt
     else
       device <- deviceInfo rt ;;
       project <- projectInfo rt cwd lists ;;
       let eventData := mergeEventData device project dbProvider eventType in
       endpoint <- getenv "KEYSTONE_TELEMETRY_ENDPOINT" ;;
       let telemetryEndpoint := or_default endpoint (defaults_telemetryEndpoint rt) in
       let telemetryUrl := telemetryEndpoint +:+ "/v1/event" in
       debug <- getenv "KEYSTONE_TELEMETRY_DEBUG" ;;
       if strict_eq debug "1"
       then
         console_log [VStr ("[Telemetry]: " +:+ telemetryUrl)] ;;;
         console_log [VObj eventData]
       else
         body <- lift (JSON_stringify rt (VObj eventData)) ;;
         response <- perform (EvFetch telemetryUrl (postJson body))
                       (fetch rt telemetryUrl (postJson body)) ;;
         forget (promise_catch noop (promise_then (Some noop) (Some noop) response)))
    (fun err => ret tt).

End Keystone.
End Keystone.

(** ** part_000, first file: the version with [/v1/event] *)
Module V1.
Section V1.

Context (rt : Runtime).

(** [sendTelemetryEvent], lines 7-47. *)
Definition sendTelemetryEvent (eventType cwd : string) (dbProvider : option string)
    (lists : option ListSchemaConfig) : M unit :=
  try_catch
    (disabled <- getenv "TELEMETRY_DISABLED" ;;
     if strict_eq disabled "1" then ret tt
     else
       device <- deviceInfo rt ;;
       project <- projectInfo rt cwd lists ;;
       let eventData := mergeEventData device project dbProvider eventType in
       endpoint <- getenv "TELEMETRY_ENDPOINT" ;;
       let telemetryEndpoint := or_default endpoint (defaults_telemetryEndpoint rt) in
       debug <- getenv "TELEMETRY_DEBUG" ;;
       if strict_eq debug "1"
       then console_log [VObj eventData]
       else
         body <- lift (JSON_stringify rt (VObj eventData)) ;;
         response <- perform (EvFetch (telemetryEndpoint +:+ "/v1/event") (postJson body))
                       (fetch rt (telemetryEndpoint +:+ "/v1/event") (postJson body)) ;;
         forget (promise_catch noop (promise_then (Some noop) (Some noop) response)))
    (fun err => ret tt).

End V1.
End V1.

(** ** index.ts, first file: the version with [/event] *)
Module Index.
Section Index.

Context (rt : Runtime).

(** Modelled from the spec: what [projectInfo] of this version makes of a
    Prisma schema text is in no source; it is a field of the fingerprint,
    whatever its key and value. *)
Context (schemaField : option string -> string * value).

(** Modelled from the spec: the missing [projectInfo(cwd, prismaSchema)]
    of this version. *)
Definition projectInfo (cwd : string) (prismaSchema : option string) : M obj :=
  projectInfoWith rt (schemaField prismaSchema) cwd.

(** [sendTelemetryEvent], lines 6-47. *)
Definition sendTelemetryEvent (eventType cwd : string) (dbProvider : option string)
    (prismaSchema : option string) : M unit :=
  try_catch
    (disabled <- getenv "TELEMETRY_DISABLED" ;;
     if strict_eq disabled "true" then ret tt
     else
       device <- deviceInfo rt ;;
       project <- projectInfo cwd prismaSchema ;;
       let eventData := mergeEventData device project dbProvider eventType in
       endpoint <- getenv "TELEMETRY_ENDPOINT" ;;
       let telemetryEndpoint := or_default endpoint (defaults_telemetryEndpoint rt) in
       debug <- getenv "TELEMETRY_DEBUG" ;;
       if strict_eq debug "1"
       then console_log [VObj eventData]
       else
         body <- lift (JSON_stringify rt (VObj eventData)) ;;
         response <- perform (EvFetch (telemetryEndpoint +:+ "/event") (postJson body))
                       (fetch rt (telemetryEndpoint +:+ "/event") (postJson body)) ;;
         forget (promise_catch noop (promise_then None None response)))
    (fun err => console_log [err]).

End Index.
End Index.

(** ** index.ts, third file: (event, environment, cwd, prismaSchema) *)
Module Legacy.
Section Legacy.

Context (rt : Runtime).

(** [prismaSchema && hashText(prismaSchema)] *)
Definition schemaHash (prismaSchema : option string) : value :=
  match prismaSchema with
  | None => VUndefined
  | Some s => if String.eqb s "" then VStr "" else VStr (hashText rt s)
  end.

(** [const eventData = { ... }], lines 95-106. *)
Definition eventData (event environment cwd : string) (prismaSchema : option string)
    : M obj :=
  device <- perform EvMachineIdSync (machineIdSync rt) ;;
  env <- get_env ;;
  os <- perform EvOsPlatform (os_platform rt) ;;
  ret [ ("device", VStr device);
        ("project", VStr (or_default (env !! "TELEMETRY_PROJECT") (hashText rt cwd)));
        ("schema", schemaHash prismaSchema);
        ("keystoneVersion",
          of_opt (env !! "npm_package_dependencies__keystone_next_keystone"));
        ("environment", VStr environment);
        ("os", VStr os);
        ("osLanguage",
          of_opt (env !! "LC_ALL" ||| env !! "LC_MESSAGES" ||| env !! "LANG"
                    ||| env !! "LANGUAGE"));
        ("event", VStr event) ].

(** [sendTelemetryEvent], lines 84-124. *)
Definition sendTelemetryEvent (event environment cwd : string)
    (prismaSchema : option string) : M unit :=
  try_catch
    (disabled <- getenv "TELEMETRY_DISABLED" ;;
     if strict_eq disabled "true" then ret tt
     else
       eventData <- eventData event environment cwd prismaSchema ;;
       endpoint <- getenv "TELEMETRY_ENDPOINT" ;;
       let telemetryEndpoint := or_default endpoint (defaults_telemetryEndpoint rt) in
       body <- lift (JSON_stringify rt (VObj eventData)) ;;
       response <- perform (EvFetch (telemetryEndpoint +:+ "/event") (postJson body))
                     (fetch rt (telemetryEndpoint +:+ "/event") (postJson body)) ;;
       forget (promise_catch noop (promise_then None None response)))
    (fun err => ret tt).

End Legacy.
End Legacy.

(** ** index.ts, fourth file: the legacy version with a list count *)
Module LegacyLists.
Section LegacyLists.

Context (rt : Runtime).

(** [const TELEMETRY_ENDPOINT = process.env.TELEMETRY_ENDPOINT || 'http://localhost:4000']
    is evaluated once, in the environment the module is imported in. *)
Definition TELEMETRY_ENDPOINT (importEnv : Env) : string :=
  or_default (importEnv !! "TELEMETRY_ENDPOINT") "http://localhost:4000".

(** [lists && { listCount: Object.keys(lists).length }] *)
Definition meta (lists : option ListSchemaConfig) : value :=
  match lists with
  | None => VUndefined
  | Some lists => VObj [("listCount", VNum (Z.of_nat (length (obj_keys_of lists))))]
  end.

(** [const eventData = { ... }], lines 150-164. *)
Definition eventData (event environment cwd : string) (prismaSchema : option string)
    (lists : option ListSchemaConfig) : M obj :=
  device <- perform EvMachineIdSync (machineIdSync rt) ;;
  env <- get_env ;;
  os <- perform EvOsPlatform (os_platform rt) ;;
  ret [ ("device", VStr device);
        ("project", VStr (or_default (env !! "TELEMETRY_PROJECT") (hashText rt cwd)));
        ("schema", Legacy.schemaHash rt prismaSchema);
        ("keystoneVersion",
          of_opt (env !! "npm_package_dependencies__keystone_next_keystone"));
        ("environment", VStr environment);
        ("os", VStr os);
        ("osLanguage",
          of_opt (env !! "LC_ALL" ||| env !! "LC_MESSAGES" ||| env !! "LANG"
                    ||| env !! "LANGUAGE"));
        ("event", VStr event);
        ("meta", meta lists) ].

(** [sendTelemetryEvent], lines 138-179, with the value of the constant
    above. *)
Definition sendTelemetryEvent (importEnv : Env) (event environment cwd : string)
    (prismaSchema : option string) (lists : option ListSchemaConfig) : M unit :=
  try_catch
    (disabled <- getenv "TELEMETRY_DISABLED" ;;
     if strict_eq disabled "true" then ret tt
     else
       eventData <- eventData event environment cwd prismaSchema lists ;;
       body <- lift (JSON_stringify rt (VObj eventData)) ;;
       response <- perform (EvFetch (TELEMETRY_ENDPOINT importEnv +:+ "/event") (postJson body))
                     (fetch rt (TELEMETRY_ENDPOINT importEnv +:+ "/event") (postJson body)) ;;
       forget (promise_catch noop (promise_then None None response)))
    (fun err => ret tt).

End LegacyLists.
End LegacyLists.

(** ** The test doubles of the repository's test files

    The stubs of the Jest tests: a hash that appends [-hashed], fixed
    device and OS strings, a [fetch] that resolves, and a serialiser for
    the values above. *)
Module Mock.

Definition is_undefined (v : value) : bool :=
  match v with
  | VUndefined => true
  | _ => false
  end.

Definition dquote : string := String (Ascii.ascii_of_nat 34) EmptyString.

Definition quote (s : string) : string := dquote +:+ s +:+ dquote.

Fixpoint join (sep : string) (parts : list string) : string :=
  match parts with
  | [] => ""
  | [p] => p
  | p :: rest => p +:+ sep +:+ join sep rest
  end.

(** [JSON.stringify] on strings without characters to escape: a property
    whose value is [undefined] is left out, an [undefined] array element
    prints as [null]. *)
Fixpoint stringify (v : value) : string :=
  match v with
  | VUndefined => "null"
  | VNull => "null"
  | VBool true => "true"
  | VBool false => "false"
  | VNum n => pretty n
  | VStr s => quote s
  | VArr items => "[" +:+ join "," (map stringify items) +:+ "]"
  | VObj props =>
      "{" +:+ join ","
        (flat_map (fun kv : string * value =>
           let (k, v') := kv in
           if is_undefined v' then [] else [quote k +:+ ":" +:+ stringify v'])
           props) +:+ "}"
  end.

(** The world of the tests, given how the store of [conf] opens, what it
    has under [telemetry.disabled], what the git command prints and how
    [fetch] completes. *)
Definition world_with_store (opened : completion unit) (telemetryDisabled : value)
    (gitOutput : completion string) (fetched : completion settled) : Runtime :=
  {| machineIdSync := Normal "device-hashed";
     os_platform := Normal "keystone-os";
     os_release := Normal "0.0.1";
     process_version := "v14.17.0";
     sha256_hex := fun text => text +:+ "-hashed";
     JSON_stringify := fun v => Normal (stringify v);
     fetch := fun _ _ => fetched;
     defaults_telemetryEndpoint := "https://telemetry.keystonejs.com";
     new_Conf := opened;
     conf_get := fun key =>
       Normal (if String.eqb key "telemetry.disabled" then telemetryDisabled
               else VUndefined);
     execSync_gitOrigin := fun _ => gitOutput;
     require_dependencies := fun path =>
       if String.eqb path "path/package.json"
       then Normal [("@keystonejs/keystone", "1.2.3")]
       else Throw (VStr "Cannot find module");
     knownPackages := ["@keystonejs/keystone"] |}.

(** The same with a store that opens. *)
Definition world (telemetryDisabled : value) (gitOutput : completion string)
    (fetched : completion settled) : Runtime :=
  world_with_store (Normal tt) telemetryDisabled gitOutput fetched.

(** [fetch] resolving to an empty response, as [defaultFetchMock] does. *)
Definition resolved : completion settled := Normal (Fulfilled (VObj [])).

(** Nothing stored, and the origin of the tests. *)
Definition runtime : Runtime := world VUndefined (Normal "git@origin") resolved.


(** A world whose preference store cannot be read: [new Conf()] throws. *)
Definition unreadable_store : Runtime :=
  world_with_store (Throw (VStr "EACCES: permission denied")) VUndefined
    (Normal "git@origin") resolved.

(** The same world with a [fetch] that throws, and with one whose promise
    is rejected. *)
Definition fetch_throws : Runtime :=
  world VUndefined (Normal "git@origin") (Throw (VStr "Error")).

Definition fetch_rejects : Runtime :=
  world VUndefined (Normal "git@origin") (Normal (Rejected (VStr "ECONNREFUSED"))).

(** The [lists] of the tests: [Thing] with three fields, [Stuff] with two. *)
Definition lists : ListSchemaConfig :=
  [("Thing", ["id"; "name"; "thing"]); ("Stuff", ["id"; "name"])].

(** What the two collectors return with these doubles, for [cwd = "path"],
    the [lists] above and no locale variable. *)
Definition device : obj :=
  [ ("deviceHash", VStr "device-hashed");
    ("os", VStr "keystone-os");
    ("osVersion", VStr "0.0.1");
    ("nodeVersion", VStr "v14.17.0");
    ("locale", VNull) ].

Definition project : obj :=
  [ ("gitOriginHash", VStr "origin-hashed");
    ("pathHash", VStr "path-hashed");
    ("fieldCounts", VArr [VNum 3; VNum 2]);
    ("keystonePackages", VObj [("@keystonejs/keystone", VStr "1.2.3")]) ].

(** The payload of the test [sendTelemetryEvent calls with expected data]. *)
Definition eventData : obj :=
  device ++ project ++ [("dbProvider", VStr "mydb"); ("eventType", VStr "test-event")].

End Mock.

(** ** examples/rest-api/routes/tasks.ts: the route handler [getTasks] *)
Module Tasks.

(** What the handler does to the outside: the query it runs and the
    response it sends. *)
Inductive call : Type :=
| FindMany (args : value)
| Json (body : value).

(** [x === s] for a value [x] of any type and a string literal [s]. *)
Definition is_string (x : value) (s : string) : bool :=
  match x with
  | VStr v => String.eqb v s
  | _ => false
  end.

(** The template literal passed as [query], lines 32-41. *)
Definition taskFields : string :=
  let nl := String newline EmptyString in
  nl +:+ "      id" +:+ nl +:+ "      label" +:+ nl +:+ "      priority" +:+ nl
     +:+ "      isComplete" +:+ nl +:+ "      assignedTo {" +:+ nl +:+ "        id" +:+ nl
     +:+ "        name" +:+ nl +:+ "      }" +:+ nl +:+ "    ".

Section Tasks.

(** [context.query.Task.findMany], which throws or returns a promise, and
    [response.json]. *)
Context (findMany : value -> completion settled) (json : value -> completion unit).

(** [let isComplete; if ... else if ...], lines 21-26, from
    [query.complete]. *)
Definition isComplete (complete : value) : value :=
  if is_string complete "true" then VObj [("equals", VBool true)]
  else if is_string complete "false" then VObj [("equals", VBool false)]
  else VUndefined.

(** The argument of [findMany], lines 28-42. *)
Definition findManyArgs (complete : value) : value :=
  VObj [ ("where", VObj [("isComplete", isComplete complete)]);
         ("query", VStr taskFields) ].

(** [getTasks], lines 14-45: how the promise of the [async] function
    settles ([Throw] when it is rejected), and the calls made. *)
Definition getTasks (complete : value) : completion unit * list call :=
  match findMany (findManyArgs complete) with
  | Normal (Fulfilled tasks) =>
      (json tasks, [FindMany (findManyArgs complete); Json tasks])
  | Normal (Rejected reason) => (Throw reason, [FindMany (findManyArgs complete)])
  | Throw err => (Throw err, [FindMany (findManyArgs complete)])
  end.

End Tasks.
End Tasks.

(** * The vocabulary of the statements

    What is observed of a call (its requests, its log, its unhandled
    rejections) and the words of the spec the theorems are stated in. *)

(** ** Traces *)

(** The calls the two collectors make. *)
Definition is_collection (e : event) : bool :=
  match e with
  | EvMachineIdSync | EvOsPlatform | EvOsRelease | EvExecSync _ | EvRequire _ => true
  | EvConsoleLog _ | EvFetch _ _ | EvUnhandledRejection _ => false
  end.

(** The requests of a trace, oldest first. *)
Fixpoint fetches (t : list event) : list (string * RequestInit) :=
  match t with
  | [] => []
  | EvFetch url init :: rest => (url, init) :: fetches rest
  | _ :: rest => fetches rest
  end.

(** What [console.log] was given, oldest first. *)
Fixpoint logged (t : list event) : list (list value) :=
  match t with
  | [] => []
  | EvConsoleLog args :: rest => args :: logged rest
  | _ :: rest => logged rest
  end.

Fixpoint unhandled (t : list event) : list value :=
  match t with
  | [] => []
  | EvUnhandledRejection e :: rest => e :: unhandled rest
  | _ :: rest => unhandled rest
  end.

Section Vocabulary.

Context (rt : Runtime).

(** ** Dispatch *)

(** The request a payload leads to, when it serialises. *)
Definition sent (url : string) (payload : obj) : list event :=
  match JSON_stringify rt (VObj payload) with
  | Normal body => [EvFetch url (postJson body)]
  | Throw _ => []
  end.

(** How the chain of serialising and posting completes: what
    [JSON.stringify] or [fetch] throws, or normally. *)
Definition posted (url : string) (payload : obj) : completion unit :=
  match JSON_stringify rt (VObj payload) with
  | Normal body =>
      match fetch rt url (postJson body) with
      | Normal _ => Normal tt
      | Throw e => Throw e
      end
  | Throw e => Throw e
  end.

(** What a call leaves in the trace after the disable check: the calls of
    the two collectors and then, when both returned, what [dispatch] makes
    of their results; [onThrow] is what the [catch] block leaves. *)
Definition collect_then {A B} (onThrow : value -> list event)
    (device : M A) (project : M B) (dispatch : A -> B -> list event) (env : Env)
    : list event :=
  trace (device env) ++
  match result (device env) with
  | Normal d =>
      trace (project env) ++
      match result (project env) with
      | Normal p => dispatch d p
      | Throw e => onThrow e
      end
  | Throw e => onThrow e
  end.

(** [catch (err) {}] *)
Definition silently (_ : value) : list event := [].

(** [catch (err) { console.log(err) }] *)
Definition logging (err : value) : list event := [EvConsoleLog [err]].

Definition caught {A} (onThrow : value -> list event) (r : completion A) : list event :=
  match r with
  | Normal _ => []
  | Throw e => onThrow e
  end.

(** The requests of a call that got past the disable check. *)
Definition requests (device project : completion obj) (dbProvider : option string)
    (eventType : string) (debug : bool) (url : string) : list (string * RequestInit) :=
  match device, project with
  | Normal d, Normal p =>
      if debug then []
      else
        match JSON_stringify rt (VObj (mergeEventData d p dbProvider eventType)) with
        | Normal body => [(url, postJson body)]
        | Throw _ => []
        end
  | _, _ => []
  end.

(** A request carries the payload merged from what the two collectors
    returned and from the two call-supplied values; in it [dbProvider] and
    [eventType] hold the arguments, and any other key holds what the
    project fingerprint has under it, or else the device fingerprint. *)
Definition carries_merged (init : RequestInit) (device project : completion obj)
    (dbProvider : option string) (eventType : string) : Prop :=
  exists d p,
    device = Normal d /\ project = Normal p /\
    let eventData := mergeEventData d p dbProvider eventType in
    JSON_stringify rt (VObj eventData) = Normal (body init) /\
    obj_get "dbProvider" eventData = Some (of_opt dbProvider) /\
    obj_get "eventType" eventData = Some (VStr eventType) /\
    forall k, k <> "dbProvider" -> k <> "eventType" ->
      obj_get k eventData =
      match obj_get k p with
      | Some v => Some v
      | None => obj_get k d
      end.

End Vocabulary.

(** ** The disable state of the [KEYSTONE_]-prefixed version *)

(** The arguments of one call of [sendTelemetryEvent]. *)
Record Call := {
  call_eventType : string;
  call_cwd : string;
  call_dbProvider : option string;
  call_lists : option ListSchemaConfig
}.

Section Calls.

Context (rt : Runtime).

(** The calls a process makes after the import, one after the other. *)
Fixpoint sendAll (calls : list Call) : M unit :=
  match calls with
  | [] => ret tt
  | c :: rest =>
      Keystone.sendTelemetryEvent rt (call_eventType c) (call_cwd c)
        (call_dbProvider c) (call_lists c) ;;;
      sendAll rest
  end.

End Calls.

(** ** The locale and the git origin *)

(** The text before the first occurrence of a character, all of it when
    the character does not occur. *)
Fixpoint before (c : ascii) (s : string) : string :=
  match s with
  | EmptyString => EmptyString
  | String a rest => if Ascii.eqb a c then EmptyString else String a (before c rest)
  end.

(** The first variable of the list, in order, that is set and not empty. *)
Fixpoint first_nonempty (vars : list string) (env : Env) : option string :=
  match vars with
  | [] => None
  | var :: rest =>
      match env !! var with
      | Some v => if String.eqb v "" then first_nonempty rest env else Some v
      | None => first_nonempty rest env
      end
  end.

(** The locale as section 4.2 of the spec words it, for a given list of
    variables: the first non-empty value, cut at its first ["."], or null. *)
Definition locale_by_precedence (vars : list string) (env : Env) : value :=
  match first_nonempty vars env with
  | Some v => VStr (before "." v)
  | None => VNull
  end.

(** A line feed, as git prints it after the URL. *)
Definition LF : string := String newline EmptyString.

(** Whether a character occurs in a text. *)
Fixpoint occurs (c : ascii) (s : string) : bool :=
  match s with
  | EmptyString => false
  | String a rest => Ascii.eqb a c || occurs c rest
  end.

(** The four ways of writing the remote [host/path]. *)
Definition sshForm (host path : string) : string :=
  "git@" +:+ host +:+ ":" +:+ path.

Definition httpsForm (host path : string) : string :=
  "https://" +:+ host +:+ "/" +:+ path.

Definition httpForm (host path : string) : string :=
  "http://" +:+ host +:+ "/" +:+ path.

Definition httpsUserForm (user host path : string) : string :=
  "https://" +:+ user +:+ "@" +:+ host +:+ "/" +:+ path.

Definition remoteForms (user host path : string) : list string :=
  [ sshForm host path; httpsForm host path; httpForm host path;
    httpsUserForm user host path ].

(** What makes [user], [host] and [path] the parts of a remote URL: the
    host has no ["@"] and no [":"], the user name no ["@"] and no ["/"],
    and the path does not end in a line feed. *)
Definition remote_parts (user host path : string) : Prop :=
  occurs "@" host = false /\ occurs ":" host = false /\
  occurs "@" user = false /\ occurs "/" user = false /\
  stripTrailingNewline path = path.

Section Payload.

Context (rt : Runtime).


End Payload.

(** ** Worlds that differ in one oracle *)

(** The same world with another [fetch]. *)
Definition with_fetch (rt : Runtime)
    (fetch' : string -> RequestInit -> completion settled) : Runtime :=
  {| machineIdSync := machineIdSync rt;
     os_platform := os_platform rt;
     os_release := os_release rt;
     process_version := process_version rt;
     sha256_hex := sha256_hex rt;
     JSON_stringify := JSON_stringify rt;
     fetch := fetch';
     defaults_telemetryEndpoint := defaults_telemetryEndpoint rt;
     new_Conf := new_Conf rt;
     conf_get := conf_get rt;
     execSync_gitOrigin := execSync_gitOrigin rt;
     require_dependencies := require_dependencies rt;
     knownPackages := knownPackages rt |}.

(** The same world with another [JSON.stringify]. *)
Definition with_stringify (rt : Runtime) (stringify' : value -> completion string)
    : Runtime :=
  {| machineIdSync := machineIdSync rt;
     os_platform := os_platform rt;
     os_release := os_release rt;
     process_version := process_version rt;
     sha256_hex := sha256_hex rt;
     JSON_stringify := stringify';
     fetch := fetch rt;
     defaults_telemetryEndpoint := defaults_telemetryEndpoint rt;
     new_Conf := new_Conf rt;
     conf_get := conf_get rt;
     execSync_gitOrigin := execSync_gitOrigin rt;
     require_dependencies := require_dependencies rt;
     knownPackages := knownPackages rt |}.

(** ** What the version of index.ts catches *)

Section Failure.

Context (rt : Runtime).

(** The first thing thrown on the way of the version of index.ts to its
    request: by the device collector, by the project collector, by
    [JSON.stringify], or by [fetch]. *)
Definition index_failure (schemaField : option string -> string * value)
    (eventType cwd : string) (dbProvider prismaSchema : option string) (env : Env)
    : option value :=
  match result (deviceInfo rt env) with
  | Throw err => Some err
  | Normal device =>
      match result (Index.projectInfo rt schemaField cwd prismaSchema env) with
      | Throw err => Some err
      | Normal project =>
          match posted rt (or_default (env !! "TELEMETRY_ENDPOINT")
                             (defaults_telemetryEndpoint rt) +:+ "/event")
                  (mergeEventData device project dbProvider eventType) with
          | Throw err => Some err
          | Normal _ => None
          end
      end
  end.

End Failure.

(** ** The value of a chain of [||] *)

(** What [a || b || ...] over environment lookups evaluates to when no
    operand is truthy: its last operand. *)
Fixpoint last_operand (vars : list string) (env : Env) (acc : option string)
    : option string :=
  match vars with
  | [] => acc
  | var :: rest => last_operand rest env (env !! var)
  end.

(** * Properties *)

(** ** Objects *)

Lemma obj_get_set_eq k v o : obj_get k (obj_set k v o) = Some v.
Proof.
  induction o as [|[k' v'] rest IH]; simpl.
  - now rewrite String.eqb_refl.
  - destruct (String.eqb k k') eqn:E; simpl.
    + now rewrite String.eqb_refl.
    + now rewrite E.
Qed.

Lemma obj_get_set_ne k k' v o : k <> k' -> obj_get k (obj_set k' v o) = obj_get k o.
Proof.
  intros Hne. induction o as [|[k'' v''] rest IH]; simpl.
  - destruct (String.eqb k k') eqn:E; [apply String.eqb_eq in E; contradiction | reflexivity].
  - destruct (String.eqb k' k'') eqn:E; simpl.
    + apply String.eqb_eq in E; subst k''.
      destruct (String.eqb k k') eqn:E'; [apply String.eqb_eq in E'; contradiction | reflexivity].
    + destruct (String.eqb k k''); [reflexivity | exact IH].
Qed.

(** In [{ ...target, ...source }] a key of [source] wins. *)
Lemma obj_get_spread k target source :
  obj_get k (obj_spread target source) =
  match obj_get k (obj_spread [] source) with
  | Some v => Some v
  | None => obj_get k target
  end.
Proof.
  unfold obj_spread. rewrite <- !fold_left_rev_right.
  induction (rev source) as [|[k' v'] rest IH]; simpl.
  - reflexivity.
  - destruct (string_dec k k') as [->|Hne].
    + now rewrite !obj_get_set_eq.
    + rewrite !obj_get_set_ne by assumption. exact IH.
Qed.

(** Spreading an object with distinct keys into the empty object copies
    its lookups. *)
Lemma obj_get_spread_nil k source :
  obj_get k (obj_spread [] source) = obj_get k (rev source).
Proof.
  unfold obj_spread. rewrite <- fold_left_rev_right.
  induction (rev source) as [|[k' v'] rest IH]; simpl.
  - reflexivity.
  - destruct (String.eqb k k') eqn:E.
    + apply String.eqb_eq in E; subst k'. apply obj_get_set_eq.
    + rewrite obj_get_set_ne; [exact IH|].
      intros ->. now rewrite String.eqb_refl in E.
Qed.

Lemma mergeEventData_dbProvider device project dbProvider eventType :
  obj_get "dbProvider" (mergeEventData device project dbProvider eventType)
  = Some (of_opt dbProvider).
Proof.
  unfold mergeEventData.
  rewrite obj_get_set_ne by discriminate. apply obj_get_set_eq.
Qed.

Lemma mergeEventData_eventType device project dbProvider eventType :
  obj_get "eventType" (mergeEventData device project dbProvider eventType)
  = Some (VStr eventType).
Proof. unfold mergeEventData. apply obj_get_set_eq. Qed.

Lemma mergeEventData_collected k device project dbProvider eventType :
  k <> "dbProvider" -> k <> "eventType" ->
  obj_get k (mergeEventData device project dbProvider eventType)
  = obj_get k (obj_spread (obj_spread [] device) project).
Proof.
  intros H1 H2. unfold mergeEventData.
  now rewrite !obj_get_set_ne by assumption.
Qed.

(** ** Traces *)

Lemma fetches_app t1 t2 : fetches (t1 ++ t2) = fetches t1 ++ fetches t2.
Proof. induction t1 as [|[] rest IH]; simpl; congruence. Qed.

Lemma logged_app t1 t2 : logged (t1 ++ t2) = logged t1 ++ logged t2.
Proof. induction t1 as [|[] rest IH]; simpl; congruence. Qed.

Lemma unhandled_app t1 t2 : unhandled (t1 ++ t2) = unhandled t1 ++ unhandled t2.
Proof. induction t1 as [|[] rest IH]; simpl; congruence. Qed.

Lemma collection_quiet t :
  forallb is_collection t = true ->
  fetches t = [] /\ logged t = [] /\ unhandled t = [].
Proof.
  induction t as [|e rest IH]; simpl; [now auto|].
  intros H. apply andb_prop in H as [He Hrest].
  destruct e; simpl in *; try discriminate; auto.
Qed.

Lemma in_fetches url init t : In (EvFetch url init) t <-> In (url, init) (fetches t).
Proof.
  induction t as [|e rest IH]; simpl; [tauto|].
  destruct e; simpl;
    try (split; [intros [H|H]; [discriminate | now apply IH] | intros H; right; now apply IH]).
  split; intros [H|H].
  - left. now inversion H.
  - right. now apply IH.
  - left. now inversion H.
  - right. now apply IH.
Qed.

(** ** The collectors *)

Section CollectorFacts.

Context (rt : Runtime).

(** [deviceInfo] leaves [process.env] alone and only asks the machine and
    the OS. *)
Lemma deviceInfo_run env :
  env_after (deviceInfo rt env) = env /\
  forallb is_collection (trace (deviceInfo rt env)) = true.
Proof.
  unfold deviceInfo, bind, perform, get_env, ret, env_after, trace.
  destruct (machineIdSync rt), (os_platform rt), (os_release rt); simpl; auto.
Qed.

Lemma gitOriginHash_run cwd env :
  gitOriginHash rt cwd env =
  (Normal match execSync_gitOrigin rt cwd with
          | Normal originBuffer => originHash rt originBuffer
          | Throw _ => VNull
          end, env, [EvExecSync cwd]).
Proof.
  unfold gitOriginHash, try_catch, bind, perform, ret.
  destruct (execSync_gitOrigin rt cwd); reflexivity.
Qed.

Lemma keystonePackages_run cwd env :
  keystonePackages rt cwd env =
  (Normal match require_dependencies rt (cwd +:+ "/package.json") with
          | Normal dependencies => packageVersions rt dependencies
          | Throw _ => VObj []
          end, env, [EvRequire (cwd +:+ "/package.json")]).
Proof.
  unfold keystonePackages, try_catch, bind, perform, ret.
  destruct (require_dependencies rt _); reflexivity.
Qed.

(** [projectInfo] never throws, leaves [process.env] alone, and only runs
    git and reads the manifest. *)
Lemma projectInfoWith_run schemaField cwd env :
  projectInfoWith rt schemaField cwd env =
  (Normal (obj_set "keystonePackages"
             match require_dependencies rt (cwd +:+ "/package.json") with
             | Normal dependencies => packageVersions rt dependencies
             | Throw _ => VObj []
             end
             (obj_set (fst schemaField) (snd schemaField)
                [ ("gitOriginHash",
                    match execSync_gitOrigin rt cwd with
                    | Normal originBuffer => originHash rt originBuffer
                    | Throw _ => VNull
                    end);
                  ("pathHash", VStr (hashText rt cwd)) ])),
   env, [EvExecSync cwd; EvRequire (cwd +:+ "/package.json")]).
Proof.
  unfold projectInfoWith, bind.
  rewrite gitOriginHash_run, keystonePackages_run. reflexivity.
Qed.

Lemma projectInfoWith_quiet schemaField cwd env :
  env_after (projectInfoWith rt schemaField cwd env) = env /\
  forallb is_collection (trace (projectInfoWith rt schemaField cwd env)) = true.
Proof.
  rewrite projectInfoWith_run. now split.
Qed.

End CollectorFacts.

(** ** Dispatch *)

Section Dispatch.

Context (rt : Runtime).

Lemma promise_chain_handled onFulfilled onRejected response :
  exists v, promise_catch noop (promise_then onFulfilled onRejected response) = Fulfilled v.
Proof.
  unfold promise_catch, promise_then, noop.
  destruct response, onFulfilled as [f|], onRejected as [g|];
    try destruct (f v); try destruct (g reason); eauto.
Qed.

(** Serialise, post, and drop the handled promise: one request at most,
    and whatever is thrown on the way reaches the [catch] of the caller. *)
Lemma post_run url payload onFulfilled onRejected env :
  (body <- lift (JSON_stringify rt (VObj payload)) ;;
   response <- perform (EvFetch url (postJson body)) (fetch rt url (postJson body)) ;;
   forget (promise_catch noop (promise_then onFulfilled onRejected response))) env
  = (posted rt url payload, env, sent rt url payload).
Proof.
  unfold bind, lift, perform, sent, posted.
  destruct (JSON_stringify rt (VObj payload)) as [body|e]; [|reflexivity].
  destruct (fetch rt url (postJson body)) as [response|e]; [|reflexivity].
  destruct (promise_chain_handled onFulfilled onRejected response) as [v ->].
  reflexivity.
Qed.

End Dispatch.

(** ** What one call does, version by version *)

Section Runs.

Context (rt : Runtime).

(** Splits the run of a collector into its completion and its trace, with
    the environment unchanged. *)
Ltac run_collector H :=
  match goal with
  | |- context [deviceInfo rt ?env] =>
      let r := fresh "rd" in let e := fresh "e" in let t := fresh "td" in
      destruct (deviceInfo_run rt env) as [H _];
      destruct (deviceInfo rt env) as [[r e] t]; unfold env_after in H; simpl in H; subst e
  | |- context [projectInfoWith rt ?f ?cwd ?env] =>
      let r := fresh "rp" in let e := fresh "e" in let t := fresh "tp" in
      destruct (projectInfoWith_quiet rt f cwd env) as [H _];
      destruct (projectInfoWith rt f cwd env) as [[r e] t]; unfold env_after in H; simpl in H; subst e
  end.

Ltac trace_eq :=
  unfold ret, console_log, perform, silently, logging, caught;
  cbn [fst snd app];
  repeat rewrite app_nil_r; repeat rewrite <- app_assoc; cbn [app];
  reflexivity.

(** Runs the chain of serialising and posting the payload in the goal. *)
Ltac run_post :=
  match goal with
  | |- context [bind (lift (JSON_stringify rt (VObj ?payload)))
                  (fun body => bind (perform (EvFetch ?url _) _)
                                 (fun response =>
                                    forget (promise_catch noop
                                              (promise_then ?f ?g response)))) ?env] =>
      rewrite (post_run rt url payload f g env);
      unfold sent, posted;
      destruct (JSON_stringify rt (VObj payload)) as [?body|?e]; [|trace_eq];
      destruct (fetch rt url (postJson _)) as [?response|?e]; trace_eq
  end.

Lemma Keystone_send_run eventType cwd dbProvider lists env :
  Keystone.sendTelemetryEvent rt eventType cwd dbProvider lists env =
  (Normal tt, env,
   if strict_eq (env !! "KEYSTONE_TELEMETRY_DISABLED") "1" then []
   else
     collect_then silently (deviceInfo rt) (projectInfo rt cwd lists)
       (fun device project =>
          let eventData := mergeEventData device project dbProvider eventType in
          let telemetryUrl :=
            or_default (env !! "KEYSTONE_TELEMETRY_ENDPOINT")
              (defaults_telemetryEndpoint rt) +:+ "/v1/event" in
          if strict_eq (env !! "KEYSTONE_TELEMETRY_DEBUG") "1"
          then [ EvConsoleLog [VStr ("[Telemetry]: " +:+ telemetryUrl)];
                 EvConsoleLog [VObj eventData] ]
          else sent rt telemetryUrl eventData) env).
Proof.
  unfold Keystone.sendTelemetryEvent, try_catch, collect_then, projectInfo.
  unfold bind at 1. unfold getenv at 1.
  destruct (strict_eq (env !! "KEYSTONE_TELEMETRY_DISABLED") "1"); [reflexivity|].
  unfold bind at 1. run_collector Hd. unfold result, trace; cbn [fst snd].
  destruct rd as [device|e]; [|trace_eq].
  unfold bind at 1. run_collector Hp. cbn [fst snd].
  destruct rp as [project|e]; [|trace_eq].
  unfold bind at 1. unfold getenv at 1.
  unfold bind at 1. unfold getenv at 1.
  destruct (strict_eq (env !! "KEYSTONE_TELEMETRY_DEBUG") "1").
  - unfold bind. trace_eq.
  - run_post.
Qed.

Lemma V1_send_run eventType cwd dbProvider lists env :
  V1.sendTelemetryEvent rt eventType cwd dbProvider lists env =
  (Normal tt, env,
   if strict_eq (env !! "TELEMETRY_DISABLED") "1" then []
   else
     collect_then silently (deviceInfo rt) (projectInfo rt cwd lists)
       (fun device project =>
          let eventData := mergeEventData device project dbProvider eventType in
          let telemetryEndpoint :=
            or_default (env !! "TELEMETRY_ENDPOINT") (defaults_telemetryEndpoint rt) in
          if strict_eq (env !! "TELEMETRY_DEBUG") "1"
          then [EvConsoleLog [VObj eventData]]
          else sent rt (telemetryEndpoint +:+ "/v1/event") eventData) env).
Proof.
  unfold V1.sendTelemetryEvent, try_catch, collect_then, projectInfo.
  unfold bind at 1. unfold getenv at 1.
  destruct (strict_eq (env !! "TELEMETRY_DISABLED") "1"); [reflexivity|].
  unfold bind at 1. run_collector Hd. unfold result, trace; cbn [fst snd].
  destruct rd as [device|e]; [|trace_eq].
  unfold bind at 1. run_collector Hp. cbn [fst snd].
  destruct rp as [project|e]; [|trace_eq].
  unfold bind at 1. unfold getenv at 1.
  unfold bind at 1. unfold getenv at 1.
  destruct (strict_eq (env !! "TELEMETRY_DEBUG") "1").
  - trace_eq.
  - run_post.
Qed.

Lemma Index_send_run schemaField eventType cwd dbProvider prismaSchema env :
  Index.sendTelemetryEvent rt schemaField eventType cwd dbProvider prismaSchema env =
  (Normal tt, env,
   if strict_eq (env !! "TELEMETRY_DISABLED") "true" then []
   else
     collect_then logging (deviceInfo rt) (Index.projectInfo rt schemaField cwd prismaSchema)
       (fun device project =>
          let eventData := mergeEventData device project dbProvider eventType in
          let telemetryEndpoint :=
            or_default (env !! "TELEMETRY_ENDPOINT") (defaults_telemetryEndpoint rt) in
          if strict_eq (env !! "TELEMETRY_DEBUG") "1"
          then [EvConsoleLog [VObj eventData]]
          else sent rt (telemetryEndpoint +:+ "/event") eventData
               ++ caught logging (posted rt (telemetryEndpoint +:+ "/event") eventData)) env).
Proof.
  unfold Index.sendTelemetryEvent, try_catch, collect_then, Index.projectInfo.
  unfold bind at 1. unfold getenv at 1.
  destruct (strict_eq (env !! "TELEMETRY_DISABLED") "true"); [reflexivity|].
  unfold bind at 1. run_collector Hd. unfold result, trace; cbn [fst snd].
  destruct rd as [device|e]; [|trace_eq].
  unfold bind at 1. run_collector Hp. cbn [fst snd].
  destruct rp as [project|e]; [|trace_eq].
  unfold bind at 1. unfold getenv at 1.
  unfold bind at 1. unfold getenv at 1.
  destruct (strict_eq (env !! "TELEMETRY_DEBUG") "1").
  - trace_eq.
  - run_post.
Qed.

Lemma Legacy_eventData_run event environment cwd prismaSchema env :
  env_after (Legacy.eventData rt event environment cwd prismaSchema env) = env /\
  forallb is_collection (trace (Legacy.eventData rt event environment cwd prismaSchema env))
  = true.
Proof.
  unfold Legacy.eventData, bind, perform, get_env, ret, env_after, trace.
  destruct (machineIdSync rt), (os_platform rt); simpl; auto.
Qed.

Lemma LegacyLists_eventData_run event environment cwd prismaSchema lists env :
  env_after (LegacyLists.eventData rt event environment cwd prismaSchema lists env) = env /\
  forallb is_collection
    (trace (LegacyLists.eventData rt event environment cwd prismaSchema lists env)) = true.
Proof.
  unfold LegacyLists.eventData, bind, perform, get_env, ret, env_after, trace.
  destruct (machineIdSync rt), (os_platform rt); simpl; auto.
Qed.

Lemma Legacy_send_run event environment cwd prismaSchema env :
  Legacy.sendTelemetryEvent rt event environment cwd prismaSchema env =
  (Normal tt, env,
   if strict_eq (env !! "TELEMETRY_DISABLED") "true" then []
   else
     trace (Legacy.eventData rt event environment cwd prismaSchema env) ++
     match result (Legacy.eventData rt event environment cwd prismaSchema env) with
     | Normal eventData =>
         sent rt (or_default (env !! "TELEMETRY_ENDPOINT") (defaults_telemetryEndpoint rt)
                    +:+ "/event") eventData
     | Throw _ => []
     end).
Proof.
  unfold Legacy.sendTelemetryEvent, try_catch.
  unfold bind at 1. unfold getenv at 1.
  destruct (strict_eq (env !! "TELEMETRY_DISABLED") "true"); [reflexivity|].
  unfold bind at 1.
  destruct (Legacy_eventData_run event environment cwd prismaSchema env) as [He _].
  destruct (Legacy.eventData rt event environment cwd prismaSchema env) as [[r e] t].
  unfold env_after in He; simpl in He; subst e. unfold result, trace; cbn [fst snd].
  destruct r as [eventData|e]; [|trace_eq].
  unfold bind at 1. unfold getenv at 1.
  run_post.
Qed.

Lemma LegacyLists_send_run importEnv event environment cwd prismaSchema lists env :
  LegacyLists.sendTelemetryEvent rt importEnv event environment cwd prismaSchema lists env =
  (Normal tt, env,
   if strict_eq (env !! "TELEMETRY_DISABLED") "true" then []
   else
     trace (LegacyLists.eventData rt event environment cwd prismaSchema lists env) ++
     match result (LegacyLists.eventData rt event environment cwd prismaSchema lists env) with
     | Normal eventData =>
         sent rt (LegacyLists.TELEMETRY_ENDPOINT importEnv +:+ "/event") eventData
     | Throw _ => []
     end).
Proof.
  unfold LegacyLists.sendTelemetryEvent, try_catch.
  unfold bind at 1. unfold getenv at 1.
  destruct (strict_eq (env !! "TELEMETRY_DISABLED") "true"); [reflexivity|].
  unfold bind at 1.
  destruct (LegacyLists_eventData_run event environment cwd prismaSchema lists env) as [He _].
  destruct (LegacyLists.eventData rt event environment cwd prismaSchema lists env) as [[r e] t].
  unfold env_after in He; simpl in He; subst e. unfold result, trace; cbn [fst snd].
  destruct r as [eventData|e]; [|trace_eq].
  run_post.
Qed.

End Runs.

(** ** The requests, the log and the rejections of a call *)

Section Observations.

Context (rt : Runtime).

Lemma fetches_sent url payload :
  fetches (sent rt url payload) =
  match JSON_stringify rt (VObj payload) with
  | Normal body => [(url, postJson body)]
  | Throw _ => []
  end.
Proof. unfold sent. now destruct (JSON_stringify rt (VObj payload)). Qed.

Lemma sent_quiet url payload :
  logged (sent rt url payload) = [] /\ unhandled (sent rt url payload) = [].
Proof. unfold sent. now destruct (JSON_stringify rt (VObj payload)). Qed.

Section CollectThen.

Context {A B : Type} (onThrow : value -> list event) (device : M A) (project : M B)
  (dispatch : A -> B -> list event) (env : Env).

Hypothesis device_quiet : forallb is_collection (trace (device env)) = true.
Hypothesis project_quiet : forallb is_collection (trace (project env)) = true.

Lemma fetches_collect_then :
  fetches (collect_then onThrow device project dispatch env) =
  match result (device env) with
  | Normal d =>
      match result (project env) with
      | Normal p => fetches (dispatch d p)
      | Throw e => fetches (onThrow e)
      end
  | Throw e => fetches (onThrow e)
  end.
Proof.
  unfold collect_then.
  destruct (collection_quiet _ device_quiet) as (Hd & _ & _).
  destruct (collection_quiet _ project_quiet) as (Hp & _ & _).
  rewrite fetches_app, Hd. simpl.
  destruct (result (device env)); [|reflexivity].
  rewrite fetches_app, Hp. simpl. now destruct (result (project env)).
Qed.

Lemma logged_collect_then :
  logged (collect_then onThrow device project dispatch env) =
  match result (device env) with
  | Normal d =>
      match result (project env) with
      | Normal p => logged (dispatch d p)
      | Throw e => logged (onThrow e)
      end
  | Throw e => logged (onThrow e)
  end.
Proof.
  unfold collect_then.
  destruct (collection_quiet _ device_quiet) as (_ & Hd & _).
  destruct (collection_quiet _ project_quiet) as (_ & Hp & _).
  rewrite logged_app, Hd. simpl.
  destruct (result (device env)); [|reflexivity].
  rewrite logged_app, Hp. simpl. now destruct (result (project env)).
Qed.

Lemma unhandled_collect_then :
  unhandled (collect_then onThrow device project dispatch env) =
  match result (device env) with
  | Normal d =>
      match result (project env) with
      | Normal p => unhandled (dispatch d p)
      | Throw e => unhandled (onThrow e)
      end
  | Throw e => unhandled (onThrow e)
  end.
Proof.
  unfold collect_then.
  destruct (collection_quiet _ device_quiet) as (_ & _ & Hd).
  destruct (collection_quiet _ project_quiet) as (_ & _ & Hp).
  rewrite unhandled_app, Hd. simpl.
  destruct (result (device env)); [|reflexivity].
  rewrite unhandled_app, Hp. simpl. now destruct (result (project env)).
Qed.

End CollectThen.

End Observations.

(** * The claims *)

Section NeverThrows.

Context (rt : Runtime).

Lemma unhandled_sent url payload : unhandled (sent rt url payload) = [].
Proof. apply sent_quiet. Qed.

Lemma Keystone_unhandled eventType cwd dbProvider lists env :
  unhandled (trace (Keystone.sendTelemetryEvent rt eventType cwd dbProvider lists env)) = [].
Proof.
  rewrite Keystone_send_run. unfold trace; cbn [snd].
  destruct (strict_eq _ _); [reflexivity|].
  rewrite unhandled_collect_then
    by (apply deviceInfo_run || apply projectInfoWith_quiet).
  destruct (result _); [|reflexivity]. destruct (result _); [|reflexivity].
  cbv zeta. destruct (strict_eq _ _); [reflexivity | apply unhandled_sent].
Qed.

Lemma V1_unhandled eventType cwd dbProvider lists env :
  unhandled (trace (V1.sendTelemetryEvent rt eventType cwd dbProvider lists env)) = [].
Proof.
  rewrite V1_send_run. unfold trace; cbn [snd].
  destruct (strict_eq _ _); [reflexivity|].
  rewrite unhandled_collect_then
    by (apply deviceInfo_run || apply projectInfoWith_quiet).
  destruct (result _); [|reflexivity]. destruct (result _); [|reflexivity].
  cbv zeta. destruct (strict_eq _ _); [reflexivity | apply unhandled_sent].
Qed.

Lemma Index_unhandled schemaField eventType cwd dbProvider prismaSchema env :
  unhandled (trace (Index.sendTelemetryEvent rt schemaField eventType cwd dbProvider
                      prismaSchema env)) = [].
Proof.
  rewrite Index_send_run. unfold trace; cbn [snd].
  destruct (strict_eq _ _); [reflexivity|].
  rewrite unhandled_collect_then
    by (apply deviceInfo_run || apply projectInfoWith_quiet).
  destruct (result _); [|reflexivity]. destruct (result _); [|reflexivity].
  cbv zeta. destruct (strict_eq _ _); [reflexivity|].
  rewrite unhandled_app, unhandled_sent.
  now destruct (posted _ _ _).
Qed.

Lemma Legacy_unhandled event environment cwd prismaSchema env :
  unhandled (trace (Legacy.sendTelemetryEvent rt event environment cwd prismaSchema env)) = [].
Proof.
  rewrite Legacy_send_run. unfold trace at 1; cbn [snd].
  destruct (strict_eq _ _); [reflexivity|].
  destruct (Legacy_eventData_run rt event environment cwd prismaSchema env) as [_ Hq].
  apply collection_quiet in Hq as (_ & _ & Hq).
  rewrite unhandled_app, Hq.
  destruct (result _); [apply unhandled_sent | reflexivity].
Qed.

Lemma LegacyLists_unhandled importEnv event environment cwd prismaSchema lists env :
  unhandled (trace (LegacyLists.sendTelemetryEvent rt importEnv event environment cwd
                      prismaSchema lists env)) = [].
Proof.
  rewrite LegacyLists_send_run. unfold trace at 1; cbn [snd].
  destruct (strict_eq _ _); [reflexivity|].
  destruct (LegacyLists_eventData_run rt event environment cwd prismaSchema lists env)
    as [_ Hq].
  apply collection_quiet in Hq as (_ & _ & Hq).
  rewrite unhandled_app, Hq.
  destruct (result _); [apply unhandled_sent | reflexivity].
Qed.

(** C1: whatever the arguments, the environment and the outside world
    (a [fetch] or a [JSON.stringify] that throws included), every version
    of [sendTelemetryEvent] returns normally, with no value, and leaves no
    rejected promise unhandled. *)
Theorem sendTelemetryEvent_never_throws (env : Env) :
  (forall eventType cwd dbProvider lists,
     let run := Keystone.sendTelemetryEvent rt eventType cwd dbProvider lists env in
     result run = Normal tt /\ unhandled (trace run) = []) /\
  (forall eventType cwd dbProvider lists,
     let run := V1.sendTelemetryEvent rt eventType cwd dbProvider lists env in
     result run = Normal tt /\ unhandled (trace run) = []) /\
  (forall schemaField eventType cwd dbProvider prismaSchema,
     let run := Index.sendTelemetryEvent rt schemaField eventType cwd dbProvider
                  prismaSchema env in
     result run = Normal tt /\ unhandled (trace run) = []) /\
  (forall event environment cwd prismaSchema,
     let run := Legacy.sendTelemetryEvent rt event environment cwd prismaSchema env in
     result run = Normal tt /\ unhandled (trace run) = []) /\
  (forall importEnv event environment cwd prismaSchema lists,
     let run := LegacyLists.sendTelemetryEvent rt importEnv event environment cwd
                  prismaSchema lists env in
     result run = Normal tt /\ unhandled (trace run) = []).
Proof.
  repeat split; intros.
  - now rewrite Keystone_send_run.
  - apply Keystone_unhandled.
  - now rewrite V1_send_run.
  - apply V1_unhandled.
  - now rewrite Index_send_run.
  - apply Index_unhandled.
  - now rewrite Legacy_send_run.
  - apply Legacy_unhandled.
  - now rewrite LegacyLists_send_run.
  - apply LegacyLists_unhandled.
Qed.

End NeverThrows.

Section Disabled.

Context (rt : Runtime).

(** C2, amended: when the disable variable holds exactly the string the
    version compares it with (["1"] for [KEYSTONE_TELEMETRY_DISABLED] and
    for [TELEMETRY_DISABLED] in the [/v1/event] version, ["true"] for
    [TELEMETRY_DISABLED] in the versions of index.ts), the call returns at
    once: it makes no call to the outside world (no machine id, no git, no
    request, no log) and leaves [process.env] as it was. *)
Theorem disabled_returns_at_once (env : Env) :
  (env !! "KEYSTONE_TELEMETRY_DISABLED" = Some "1" ->
   forall eventType cwd dbProvider lists,
     Keystone.sendTelemetryEvent rt eventType cwd dbProvider lists env
     = (Normal tt, env, [])) /\
  (env !! "TELEMETRY_DISABLED" = Some "1" ->
   forall eventType cwd dbProvider lists,
     V1.sendTelemetryEvent rt eventType cwd dbProvider lists env
     = (Normal tt, env, [])) /\
  (env !! "TELEMETRY_DISABLED" = Some "true" ->
   (forall schemaField eventType cwd dbProvider prismaSchema,
      Index.sendTelemetryEvent rt schemaField eventType cwd dbProvider prismaSchema env
      = (Normal tt, env, [])) /\
   (forall event environment cwd prismaSchema,
      Legacy.sendTelemetryEvent rt event environment cwd prismaSchema env
      = (Normal tt, env, [])) /\
   (forall importEnv event environment cwd prismaSchema lists,
      LegacyLists.sendTelemetryEvent rt importEnv event environment cwd prismaSchema
        lists env
      = (Normal tt, env, []))).
Proof.
  repeat split; intros.
  - rewrite Keystone_send_run. now rewrite H.
  - rewrite V1_send_run. now rewrite H.
  - rewrite Index_send_run. now rewrite H.
  - rewrite Legacy_send_run. now rewrite H.
  - rewrite LegacyLists_send_run. now rewrite H.
Qed.

End Disabled.

(** C2, witness: [KEYSTONE_TELEMETRY_DISABLED=1] with the test doubles. *)
Lemma disabled_returns_at_once_witness :
  Keystone.sendTelemetryEvent Mock.runtime "test-event" "path" (Some "mydb")
    (Some Mock.lists) {[ "KEYSTONE_TELEMETRY_DISABLED" := "1" ]}
  = (Normal tt, {[ "KEYSTONE_TELEMETRY_DISABLED" := "1" ]}, []).
Proof.
  apply (proj1 (disabled_returns_at_once Mock.runtime
                  {[ "KEYSTONE_TELEMETRY_DISABLED" := "1" ]})).
  reflexivity.
Defined.

(** C2, counterexample: ["true"] is a truthy value of the disable
    variable, and the [KEYSTONE_]-prefixed version still collects both
    fingerprints and posts the event. *)
Lemma truthy_disable_value_still_sends :
  let env : Env := {[ "KEYSTONE_TELEMETRY_DISABLED" := "true" ]} in
  let run := Keystone.sendTelemetryEvent Mock.runtime "test-event" "path" (Some "mydb")
               (Some Mock.lists) env in
  truthy_str (env !! "KEYSTONE_TELEMETRY_DISABLED") = true /\
  firstn 5 (trace run)
  = [ EvMachineIdSync; EvOsPlatform; EvOsRelease; EvExecSync "path";
      EvRequire "path/package.json" ] /\
  map fst (fetches (trace run)) = ["https://telemetry.keystonejs.com/v1/event"].
Proof. vm_compute. repeat split. Qed.

(** ** The requests and the log of the versions with a debug switch *)

Section Requests.

Context (rt : Runtime).

Lemma in_requests device project dbProvider eventType debug url u init :
  In (u, init) (requests rt device project dbProvider eventType debug url) ->
  debug = false /\ u = url /\
  exists d p body,
    device = Normal d /\ project = Normal p /\
    JSON_stringify rt (VObj (mergeEventData d p dbProvider eventType)) = Normal body /\
    init = postJson body.
Proof.
  unfold requests.
  destruct device as [d|]; [|contradiction].
  destruct project as [p|]; [|contradiction].
  destruct debug; [contradiction|].
  destruct (JSON_stringify rt _) as [body|] eqn:E; [|contradiction].
  intros [H|[]]. inversion H; subst. repeat split; eauto 8.
Qed.

Lemma Keystone_fetches eventType cwd dbProvider lists env :
  fetches (trace (Keystone.sendTelemetryEvent rt eventType cwd dbProvider lists env)) =
  if strict_eq (env !! "KEYSTONE_TELEMETRY_DISABLED") "1" then []
  else
    requests rt (result (deviceInfo rt env)) (result (projectInfo rt cwd lists env))
      dbProvider eventType (strict_eq (env !! "KEYSTONE_TELEMETRY_DEBUG") "1")
      (or_default (env !! "KEYSTONE_TELEMETRY_ENDPOINT") (defaults_telemetryEndpoint rt)
         +:+ "/v1/event").
Proof.
  rewrite Keystone_send_run. unfold trace at 1; cbn [snd].
  destruct (strict_eq _ _); [reflexivity|].
  rewrite fetches_collect_then
    by (apply deviceInfo_run || apply projectInfoWith_quiet).
  unfold requests.
  destruct (result _); [|reflexivity]. destruct (result _); [|reflexivity].
  cbv zeta. destruct (strict_eq _ _); [reflexivity | apply fetches_sent].
Qed.

Lemma V1_fetches eventType cwd dbProvider lists env :
  fetches (trace (V1.sendTelemetryEvent rt eventType cwd dbProvider lists env)) =
  if strict_eq (env !! "TELEMETRY_DISABLED") "1" then []
  else
    requests rt (result (deviceInfo rt env)) (result (projectInfo rt cwd lists env))
      dbProvider eventType (strict_eq (env !! "TELEMETRY_DEBUG") "1")
      (or_default (env !! "TELEMETRY_ENDPOINT") (defaults_telemetryEndpoint rt)
         +:+ "/v1/event").
Proof.
  rewrite V1_send_run. unfold trace at 1; cbn [snd].
  destruct (strict_eq _ _); [reflexivity|].
  rewrite fetches_collect_then
    by (apply deviceInfo_run || apply projectInfoWith_quiet).
  unfold requests.
  destruct (result _); [|reflexivity]. destruct (result _); [|reflexivity].
  cbv zeta. destruct (strict_eq _ _); [reflexivity | apply fetches_sent].
Qed.

Lemma Index_fetches schemaField eventType cwd dbProvider prismaSchema env :
  fetches (trace (Index.sendTelemetryEvent rt schemaField eventType cwd dbProvider
                    prismaSchema env)) =
  if strict_eq (env !! "TELEMETRY_DISABLED") "true" then []
  else
    requests rt (result (deviceInfo rt env))
      (result (Index.projectInfo rt schemaField cwd prismaSchema env))
      dbProvider eventType (strict_eq (env !! "TELEMETRY_DEBUG") "1")
      (or_default (env !! "TELEMETRY_ENDPOINT") (defaults_telemetryEndpoint rt)
         +:+ "/event").
Proof.
  rewrite Index_send_run. unfold trace at 1; cbn [snd].
  destruct (strict_eq _ _); [reflexivity|].
  rewrite fetches_collect_then
    by (apply deviceInfo_run || apply projectInfoWith_quiet).
  unfold requests.
  destruct (result _); [|reflexivity]. destruct (result _); [|reflexivity].
  cbv zeta. destruct (strict_eq _ _); [reflexivity|].
  rewrite fetches_app, fetches_sent.
  destruct (posted _ _ _); simpl; now rewrite app_nil_r.
Qed.

(** [a || d] read as the spec words it: the override when it is set and
    not empty, the default otherwise. *)
Lemma or_default_cases (a : option string) (d : string) :
  (forall s, a = Some s -> s <> "" -> or_default a d = s) /\
  (a = None \/ a = Some "" -> or_default a d = d).
Proof.
  split.
  - intros s -> Hs. unfold or_default.
    destruct (String.eqb s "") eqn:E; [apply String.eqb_eq in E; contradiction | reflexivity].
  - intros [->| ->]; reflexivity.
Qed.

End Requests.

Lemma strict_eq_true x s : strict_eq x s = true <-> x = Some s.
Proof.
  destruct x as [v|]; simpl.
  - rewrite String.eqb_eq. split; congruence.
  - split; discriminate.
Qed.

Lemma strict_eq_false x s : strict_eq x s = false <-> x <> Some s.
Proof.
  rewrite <- strict_eq_true. destruct (strict_eq x s); split; congruence.
Qed.

Section Send.

Context (rt : Runtime).

(** C5, amended: a call that reaches the send step (the disable and the
    debug variable do not hold their switch value, both collectors return,
    the payload serialises) issues exactly one request.  Its URL is the
    endpoint override when that is set and not empty, and
    [defaults.telemetryEndpoint] otherwise, followed by [/v1/event] in the
    two versions of part_000 and by [/event] in the version of index.ts; it
    is a POST with the header Content-Type: application/json, and its body
    is [JSON.stringify] of the merged payload. *)
Theorem request_target_and_shape (env : Env) (eventType cwd : string)
    (dbProvider : option string) (device project : obj) (body : string) :
  result (deviceInfo rt env) = Normal device ->
  JSON_stringify rt (VObj (mergeEventData device project dbProvider eventType))
  = Normal body ->
  let request :=
    {| method := "POST";
       headers := [("Content-Type", "application/json")];
       body := body |} in
  (forall lists,
     result (projectInfo rt cwd lists env) = Normal project ->
     env !! "KEYSTONE_TELEMETRY_DISABLED" <> Some "1" ->
     env !! "KEYSTONE_TELEMETRY_DEBUG" <> Some "1" ->
     fetches (trace (Keystone.sendTelemetryEvent rt eventType cwd dbProvider lists env))
     = [ (or_default (env !! "KEYSTONE_TELEMETRY_ENDPOINT")
            (defaults_telemetryEndpoint rt) +:+ "/v1/event", request) ]) /\
  (forall lists,
     result (projectInfo rt cwd lists env) = Normal project ->
     env !! "TELEMETRY_DISABLED" <> Some "1" ->
     env !! "TELEMETRY_DEBUG" <> Some "1" ->
     fetches (trace (V1.sendTelemetryEvent rt eventType cwd dbProvider lists env))
     = [ (or_default (env !! "TELEMETRY_ENDPOINT")
            (defaults_telemetryEndpoint rt) +:+ "/v1/event", request) ]) /\
  (forall schemaField prismaSchema,
     result (Index.projectInfo rt schemaField cwd prismaSchema env) = Normal project ->
     env !! "TELEMETRY_DISABLED" <> Some "true" ->
     env !! "TELEMETRY_DEBUG" <> Some "1" ->
     fetches (trace (Index.sendTelemetryEvent rt schemaField eventType cwd dbProvider
                       prismaSchema env))
     = [ (or_default (env !! "TELEMETRY_ENDPOINT")
            (defaults_telemetryEndpoint rt) +:+ "/event", request) ]) /\
  (forall override : option string,
     (forall s, override = Some s -> s <> "" ->
                or_default override (defaults_telemetryEndpoint rt) = s) /\
     (override = None \/ override = Some "" ->
      or_default override (defaults_telemetryEndpoint rt) = defaults_telemetryEndpoint rt)).
Proof.
  intros Hd Hbody request. repeat split.
  - intros lists Hp Hdis Hdbg.
    rewrite Keystone_fetches. apply strict_eq_false in Hdis, Hdbg.
    rewrite Hdis, Hdbg, Hd, Hp. unfold requests. now rewrite Hbody.
  - intros lists Hp Hdis Hdbg.
    rewrite V1_fetches. apply strict_eq_false in Hdis, Hdbg.
    rewrite Hdis, Hdbg, Hd, Hp. unfold requests. now rewrite Hbody.
  - intros schemaField prismaSchema Hp Hdis Hdbg.
    rewrite Index_fetches. apply strict_eq_false in Hdis, Hdbg.
    rewrite Hdis, Hdbg, Hd, Hp. unfold requests. now rewrite Hbody.
  - apply or_default_cases.
  - apply or_default_cases.
Qed.

End Send.

(** C5, witness: the test [sendTelemetryEvent calls with expected data],
    with the doubles of the tests and no override. *)
Lemma request_target_and_shape_witness :
  fetches (trace (Keystone.sendTelemetryEvent Mock.runtime "test-event" "path"
                    (Some "mydb") (Some Mock.lists) ∅))
  = [ ("https://telemetry.keystonejs.com/v1/event",
       postJson (Mock.stringify (VObj Mock.eventData))) ].
Proof.
  refine (proj1 (request_target_and_shape Mock.runtime ∅ "test-event" "path" (Some "mydb")
                   Mock.device Mock.project (Mock.stringify (VObj Mock.eventData))
                   eq_refl eq_refl)
            (Some Mock.lists) eq_refl _ _);
    rewrite lookup_empty; discriminate.
Defined.

(** C5, counterexample: the version of index.ts posts to [/event], not to
    [/v1/event]. *)
Lemma index_version_posts_to_event :
  let run := Index.sendTelemetryEvent Mock.runtime (fun _ => ("schema", VUndefined))
               "test-event" "path" (Some "mydb") None ∅ in
  map fst (fetches (trace run)) = ["https://telemetry.keystonejs.com/event"] /\
  map fst (fetches (trace run))
  <> [ or_default ((∅ : Env) !! "TELEMETRY_ENDPOINT")
         (defaults_telemetryEndpoint Mock.runtime)
         +:+ "/v1/event" ].
Proof. vm_compute. split; [reflexivity | discriminate]. Qed.

Section Debug.

Context (rt : Runtime).

Lemma logged_sent url payload : logged (sent rt url payload) = [].
Proof. apply sent_quiet. Qed.

Lemma Keystone_logged eventType cwd dbProvider lists env :
  logged (trace (Keystone.sendTelemetryEvent rt eventType cwd dbProvider lists env)) =
  if strict_eq (env !! "KEYSTONE_TELEMETRY_DISABLED") "1" then []
  else
    match result (deviceInfo rt env), result (projectInfo rt cwd lists env) with
    | Normal device, Normal project =>
        if strict_eq (env !! "KEYSTONE_TELEMETRY_DEBUG") "1"
        then [ [VStr ("[Telemetry]: " +:+
                      (or_default (env !! "KEYSTONE_TELEMETRY_ENDPOINT")
                         (defaults_telemetryEndpoint rt) +:+ "/v1/event"))];
               [VObj (mergeEventData device project dbProvider eventType)] ]
        else []
    | _, _ => []
    end.
Proof.
  rewrite Keystone_send_run. unfold trace at 1; cbn [snd].
  destruct (strict_eq _ _); [reflexivity|].
  rewrite logged_collect_then
    by (apply deviceInfo_run || apply projectInfoWith_quiet).
  destruct (result _); [|reflexivity]. destruct (result _); [|reflexivity].
  cbv zeta. destruct (strict_eq _ _); [reflexivity | apply logged_sent].
Qed.

Lemma V1_logged eventType cwd dbProvider lists env :
  logged (trace (V1.sendTelemetryEvent rt eventType cwd dbProvider lists env)) =
  if strict_eq (env !! "TELEMETRY_DISABLED") "1" then []
  else
    match result (deviceInfo rt env), result (projectInfo rt cwd lists env) with
    | Normal device, Normal project =>
        if strict_eq (env !! "TELEMETRY_DEBUG") "1"
        then [ [VObj (mergeEventData device project dbProvider eventType)] ]
        else []
    | _, _ => []
    end.
Proof.
  rewrite V1_send_run. unfold trace at 1; cbn [snd].
  destruct (strict_eq _ _); [reflexivity|].
  rewrite logged_collect_then
    by (apply deviceInfo_run || apply projectInfoWith_quiet).
  destruct (result _); [|reflexivity]. destruct (result _); [|reflexivity].
  cbv zeta. destruct (strict_eq _ _); [reflexivity | apply logged_sent].
Qed.

(** The version of index.ts also logs what its [catch] block receives. *)
Lemma Index_logged schemaField eventType cwd dbProvider prismaSchema env :
  logged (trace (Index.sendTelemetryEvent rt schemaField eventType cwd dbProvider
                   prismaSchema env)) =
  if strict_eq (env !! "TELEMETRY_DISABLED") "true" then []
  else
    match result (deviceInfo rt env),
          result (Index.projectInfo rt schemaField cwd prismaSchema env) with
    | Normal device, Normal project =>
        if strict_eq (env !! "TELEMETRY_DEBUG") "1"
        then [ [VObj (mergeEventData device project dbProvider eventType)] ]
        else
          match posted rt (or_default (env !! "TELEMETRY_ENDPOINT")
                             (defaults_telemetryEndpoint rt) +:+ "/event")
                  (mergeEventData device project dbProvider eventType) with
          | Normal _ => []
          | Throw err => [[err]]
          end
    | Throw err, _ => [[err]]
    | Normal _, Throw err => [[err]]
    end.
Proof.
  rewrite Index_send_run. unfold trace at 1; cbn [snd].
  destruct (strict_eq _ _); [reflexivity|].
  rewrite logged_collect_then
    by (apply deviceInfo_run || apply projectInfoWith_quiet).
  destruct (result _); [|reflexivity]. destruct (result _); [|reflexivity].
  cbv zeta. destruct (strict_eq _ _); [reflexivity|].
  rewrite logged_app, logged_sent. now destruct (posted _ _ _).
Qed.

(** C6, amended: with the debug variable equal to ["1"] and the disable
    variable not equal to its switch value, no request is issued; when both
    collectors return, [console.log] receives the payload, preceded by the
    line [[Telemetry]: url] in the [KEYSTONE_]-prefixed version only (the
    other two versions log the payload alone).  The disable check comes
    first: with both switches on, nothing is logged and nothing is called. *)
Theorem debug_logs_and_sends_nothing (env : Env) (eventType cwd : string)
    (dbProvider : option string) :
  (forall lists,
     let run := Keystone.sendTelemetryEvent rt eventType cwd dbProvider lists env in
     env !! "KEYSTONE_TELEMETRY_DEBUG" = Some "1" ->
     (env !! "KEYSTONE_TELEMETRY_DISABLED" = Some "1" -> trace run = []) /\
     (env !! "KEYSTONE_TELEMETRY_DISABLED" <> Some "1" ->
      fetches (trace run) = [] /\
      forall device project,
        result (deviceInfo rt env) = Normal device ->
        result (projectInfo rt cwd lists env) = Normal project ->
        logged (trace run)
        = [ [VStr ("[Telemetry]: " +:+
                   (or_default (env !! "KEYSTONE_TELEMETRY_ENDPOINT")
                      (defaults_telemetryEndpoint rt) +:+ "/v1/event"))];
            [VObj (mergeEventData device project dbProvider eventType)] ])) /\
  (forall lists,
     let run := V1.sendTelemetryEvent rt eventType cwd dbProvider lists env in
     env !! "TELEMETRY_DEBUG" = Some "1" ->
     (env !! "TELEMETRY_DISABLED" = Some "1" -> trace run = []) /\
     (env !! "TELEMETRY_DISABLED" <> Some "1" ->
      fetches (trace run) = [] /\
      forall device project,
        result (deviceInfo rt env) = Normal device ->
        result (projectInfo rt cwd lists env) = Normal project ->
        logged (trace run)
        = [ [VObj (mergeEventData device project dbProvider eventType)] ])) /\
  (forall schemaField prismaSchema,
     let run := Index.sendTelemetryEvent rt schemaField eventType cwd dbProvider
                  prismaSchema env in
     env !! "TELEMETRY_DEBUG" = Some "1" ->
     (env !! "TELEMETRY_DISABLED" = Some "true" -> trace run = []) /\
     (env !! "TELEMETRY_DISABLED" <> Some "true" ->
      fetches (trace run) = [] /\
      forall device project,
        result (deviceInfo rt env) = Normal device ->
        result (Index.projectInfo rt schemaField cwd prismaSchema env) = Normal project ->
        logged (trace run)
        = [ [VObj (mergeEventData device project dbProvider eventType)] ])).
Proof.
  split; [|split].
  - intros lists run Hdbg. apply strict_eq_true in Hdbg. subst run. split.
    + intros Hdis. apply strict_eq_true in Hdis.
      rewrite Keystone_send_run. now rewrite Hdis.
    + intros Hdis. apply strict_eq_false in Hdis. split.
      * rewrite Keystone_fetches, Hdis, Hdbg. unfold requests.
        destruct (result _); try destruct (result _); reflexivity.
      * intros device project Hd Hp.
        now rewrite Keystone_logged, Hdis, Hdbg, Hd, Hp.
  - intros lists run Hdbg. apply strict_eq_true in Hdbg. subst run. split.
    + intros Hdis. apply strict_eq_true in Hdis.
      rewrite V1_send_run. now rewrite Hdis.
    + intros Hdis. apply strict_eq_false in Hdis. split.
      * rewrite V1_fetches, Hdis, Hdbg. unfold requests.
        destruct (result _); try destruct (result _); reflexivity.
      * intros device project Hd Hp.
        now rewrite V1_logged, Hdis, Hdbg, Hd, Hp.
  - intros schemaField prismaSchema run Hdbg. apply strict_eq_true in Hdbg. subst run. split.
    + intros Hdis. apply strict_eq_true in Hdis.
      rewrite Index_send_run. now rewrite Hdis.
    + intros Hdis. apply strict_eq_false in Hdis. split.
      * rewrite Index_fetches, Hdis, Hdbg. unfold requests.
        destruct (result _); try destruct (result _); reflexivity.
      * intros device project Hd Hp.
        now rewrite Index_logged, Hdis, Hdbg, Hd, Hp.
Qed.

End Debug.

(** C6, witness: [KEYSTONE_TELEMETRY_DEBUG=1] with the test doubles. *)
Lemma debug_logs_and_sends_nothing_witness :
  let env : Env := {[ "KEYSTONE_TELEMETRY_DEBUG" := "1" ]} in
  let run := Keystone.sendTelemetryEvent Mock.runtime "test-event" "path" (Some "mydb")
               (Some Mock.lists) env in
  fetches (trace run) = [] /\
  logged (trace run)
  = [ [VStr "[Telemetry]: https://telemetry.keystonejs.com/v1/event"];
      [VObj Mock.eventData] ].
Proof.
  intros env run.
  destruct (proj1 (debug_logs_and_sends_nothing Mock.runtime env "test-event" "path"
                     (Some "mydb")) (Some Mock.lists) eq_refl) as [_ H].
  destruct H as [Hf Hl]; [vm_compute; discriminate|].
  split; [exact Hf|].
  exact (Hl Mock.device Mock.project eq_refl eq_refl).
Defined.

(** C6, counterexample: with [TELEMETRY_DEBUG=1] the version of index.ts
    logs one thing, the payload; the URL is not written. *)
Lemma index_debug_logs_payload_only :
  let env : Env := {[ "TELEMETRY_DEBUG" := "1" ]} in
  let run := Index.sendTelemetryEvent Mock.runtime (fun _ => ("schema", VUndefined))
               "test-event" "path" (Some "mydb") None env in
  logged (trace run)
  = [ [VObj (Mock.device ++
             [ ("gitOriginHash", VStr "origin-hashed");
               ("pathHash", VStr "path-hashed");
               ("schema", VUndefined);
               ("keystonePackages", VObj [("@keystonejs/keystone", VStr "1.2.3")]);
               ("dbProvider", VStr "mydb");
               ("eventType", VStr "test-event") ])] ] /\
  ~ In [VStr "https://telemetry.keystonejs.com/event"] (logged (trace run)) /\
  ~ In [VStr "[Telemetry]: https://telemetry.keystonejs.com/event"] (logged (trace run)).
Proof.
  vm_compute. split; [reflexivity|].
  split; intros [H|[]]; discriminate.
Qed.

(** ** Keys of the collected objects *)

Lemma obj_get_None k (o : obj) : obj_get k o = None <-> ~ In k (map fst o).
Proof.
  induction o as [|[k' v] rest IH]; simpl; [tauto|].
  destruct (String.eqb k k') eqn:E.
  - apply String.eqb_eq in E. split; [discriminate | intros H; exfalso; apply H; auto].
  - apply String.eqb_neq in E. rewrite IH. split.
    + intros H [H'|H']; [congruence | contradiction].
    + intros H H'. apply H. now right.
Qed.

Lemma obj_get_app k (o1 o2 : obj) :
  obj_get k (o1 ++ o2) =
  match obj_get k o1 with
  | Some v => Some v
  | None => obj_get k o2
  end.
Proof.
  induction o1 as [|[k' v] rest IH]; simpl; [reflexivity|].
  now destruct (String.eqb k k').
Qed.

(** With distinct keys the order of the properties does not matter to a
    lookup. *)
Lemma obj_get_rev k (o : obj) : List.NoDup (map fst o) -> obj_get k (rev o) = obj_get k o.
Proof.
  induction o as [|[k' v] rest IH]; simpl; [reflexivity|].
  intros Hnd. apply List.NoDup_cons_iff in Hnd as [Hnotin Hnd].
  rewrite obj_get_app, IH by assumption. simpl.
  destruct (String.eqb k k') eqn:E.
  - apply String.eqb_eq in E; subst k'.
    apply obj_get_None in Hnotin. now rewrite Hnotin.
  - now destruct (obj_get k rest).
Qed.

Lemma obj_set_keys k v (o : obj) :
  map fst (obj_set k v o) =
  match obj_get k o with
  | Some _ => map fst o
  | None => map fst o ++ [k]
  end.
Proof.
  induction o as [|[k' v'] rest IH]; simpl; [reflexivity|].
  destruct (String.eqb k k') eqn:E; simpl.
  - apply String.eqb_eq in E. now subst.
  - rewrite IH. now destruct (obj_get k rest).
Qed.

Lemma obj_set_NoDup k v (o : obj) : List.NoDup (map fst o) -> List.NoDup (map fst (obj_set k v o)).
Proof.
  intros Hnd. rewrite obj_set_keys.
  destruct (obj_get k o) eqn:E; [assumption|].
  apply obj_get_None in E.
  apply List.NoDup_app; [assumption | constructor; [intros [] | constructor] |].
  intros x Hx [<-|[]]. contradiction.
Qed.

(** [{ ...device, ...project }] looks a key up in [project] first. *)
Lemma obj_get_collected k (device project : obj) :
  List.NoDup (map fst device) -> List.NoDup (map fst project) ->
  obj_get k (obj_spread (obj_spread [] device) project) =
  match obj_get k project with
  | Some v => Some v
  | None => obj_get k device
  end.
Proof.
  intros Hd Hp.
  rewrite obj_get_spread, !obj_get_spread_nil, !obj_get_rev by assumption.
  reflexivity.
Qed.

Section CollectedKeys.

Context (rt : Runtime).

Lemma deviceInfo_keys env device :
  result (deviceInfo rt env) = Normal device ->
  map fst device = ["deviceHash"; "os"; "osVersion"; "nodeVersion"; "locale"].
Proof.
  unfold deviceInfo, bind, perform, get_env, ret, result.
  destruct (machineIdSync rt), (os_platform rt), (os_release rt); simpl;
    intros H; inversion H; reflexivity.
Qed.

Lemma deviceInfo_NoDup env device :
  result (deviceInfo rt env) = Normal device -> List.NoDup (map fst device).
Proof.
  intros H. rewrite (deviceInfo_keys _ _ H).
  repeat (constructor; [simpl; intuition discriminate|]). constructor.
Qed.

Lemma projectInfoWith_NoDup schemaField cwd env project :
  result (projectInfoWith rt schemaField cwd env) = Normal project ->
  List.NoDup (map fst project).
Proof.
  rewrite projectInfoWith_run.
  unfold result; cbn [fst]. intros H.
  assert (Hn : forall o : obj,
             Normal o = Normal project -> List.NoDup (map fst o) ->
             List.NoDup (map fst project))
    by (intros o [= ->]; auto).
  apply (Hn _ H). do 2 apply obj_set_NoDup.
  repeat (constructor; [simpl; intuition discriminate|]). constructor.
Qed.

End CollectedKeys.

Section Merge.

Context (rt : Runtime).

Lemma requests_carry_merged schemaField cwd env device dbProvider eventType debug url u init :
  device = result (deviceInfo rt env) ->
  In (u, init)
    (requests rt device (result (projectInfoWith rt schemaField cwd env))
       dbProvider eventType debug url) ->
  carries_merged rt init device (result (projectInfoWith rt schemaField cwd env))
    dbProvider eventType.
Proof.
  intros Hdev Hin.
  apply in_requests in Hin as (_ & _ & d & p & body & Hd & Hp & Hbody & ->).
  exists d, p. repeat split; try assumption.
  - apply mergeEventData_dbProvider.
  - apply mergeEventData_eventType.
  - intros k H1 H2. rewrite mergeEventData_collected by assumption.
    apply obj_get_collected.
    + apply (deviceInfo_NoDup rt env). congruence.
    + apply (projectInfoWith_NoDup rt schemaField cwd env). assumption.
Qed.

(** A call that got past the disable check outside debug mode, whose
    collectors returned and whose payload serialises, makes the request. *)
Lemma requests_of_merged device project d p dbProvider eventType url body :
  device = Normal d -> project = Normal p ->
  JSON_stringify rt (VObj (mergeEventData d p dbProvider eventType)) = Normal body ->
  requests rt device project dbProvider eventType false url = [(url, postJson body)].
Proof. intros -> -> Hbody. unfold requests. now rewrite Hbody. Qed.

(** C8: each of the three versions that merge collected and call-supplied
    fields, when it is not disabled and not in debug mode, the collectors
    return and the merged object serialises, posts exactly one request,
    whose body is the serialised [{ ...device, ...project, dbProvider,
    eventType }]; and in every request a version makes, the payload holds
    the [dbProvider] and [eventType] arguments under these two keys,
    whatever the collectors returned under them, and every other key holds
    the collected value. *)
Theorem call_supplied_fields_win (env : Env) (eventType cwd : string)
    (dbProvider : option string) :
  (forall lists,
     let run := Keystone.sendTelemetryEvent rt eventType cwd dbProvider lists env in
     (forall d p body,
        env !! "KEYSTONE_TELEMETRY_DISABLED" <> Some "1" ->
        env !! "KEYSTONE_TELEMETRY_DEBUG" <> Some "1" ->
        result (deviceInfo rt env) = Normal d ->
        result (projectInfo rt cwd lists env) = Normal p ->
        JSON_stringify rt (VObj (mergeEventData d p dbProvider eventType)) = Normal body ->
        fetches (trace run)
        = [ (or_default (env !! "KEYSTONE_TELEMETRY_ENDPOINT")
               (defaults_telemetryEndpoint rt) +:+ "/v1/event", postJson body) ]) /\
     (forall url init,
        In (EvFetch url init) (trace run) ->
        carries_merged rt init (result (deviceInfo rt env))
          (result (projectInfo rt cwd lists env)) dbProvider eventType)) /\
  (forall lists,
     let run := V1.sendTelemetryEvent rt eventType cwd dbProvider lists env in
     (forall d p body,
        env !! "TELEMETRY_DISABLED" <> Some "1" ->
        env !! "TELEMETRY_DEBUG" <> Some "1" ->
        result (deviceInfo rt env) = Normal d ->
        result (projectInfo rt cwd lists env) = Normal p ->
        JSON_stringify rt (VObj (mergeEventData d p dbProvider eventType)) = Normal body ->
        fetches (trace run)
        = [ (or_default (env !! "TELEMETRY_ENDPOINT")
               (defaults_telemetryEndpoint rt) +:+ "/v1/event", postJson body) ]) /\
     (forall url init,
        In (EvFetch url init) (trace run) ->
        carries_merged rt init (result (deviceInfo rt env))
          (result (projectInfo rt cwd lists env)) dbProvider eventType)) /\
  (forall schemaField prismaSchema,
     let run := Index.sendTelemetryEvent rt schemaField eventType cwd dbProvider
                  prismaSchema env in
     (forall d p body,
        env !! "TELEMETRY_DISABLED" <> Some "true" ->
        env !! "TELEMETRY_DEBUG" <> Some "1" ->
        result (deviceInfo rt env) = Normal d ->
        result (Index.projectInfo rt schemaField cwd prismaSchema env) = Normal p ->
        JSON_stringify rt (VObj (mergeEventData d p dbProvider eventType)) = Normal body ->
        fetches (trace run)
        = [ (or_default (env !! "TELEMETRY_ENDPOINT")
               (defaults_telemetryEndpoint rt) +:+ "/event", postJson body) ]) /\
     (forall url init,
        In (EvFetch url init) (trace run) ->
        carries_merged rt init (result (deviceInfo rt env))
          (result (Index.projectInfo rt schemaField cwd prismaSchema env))
          dbProvider eventType)).
Proof.
  split; [|split].
  - intros lists run. subst run. split.
    + intros d p body Hon Hdebug Hd Hp Hbody.
      apply strict_eq_false in Hon, Hdebug.
      rewrite Keystone_fetches, Hon, Hdebug.
      now apply (requests_of_merged _ _ d p).
    + intros url init Hin. apply in_fetches in Hin. rewrite Keystone_fetches in Hin.
      destruct (strict_eq _ _); [contradiction|].
      eapply requests_carry_merged; [reflexivity | exact Hin].
  - intros lists run. subst run. split.
    + intros d p body Hon Hdebug Hd Hp Hbody.
      apply strict_eq_false in Hon, Hdebug.
      rewrite V1_fetches, Hon, Hdebug.
      now apply (requests_of_merged _ _ d p).
    + intros url init Hin. apply in_fetches in Hin. rewrite V1_fetches in Hin.
      destruct (strict_eq _ _); [contradiction|].
      eapply requests_carry_merged; [reflexivity | exact Hin].
  - intros schemaField prismaSchema run. subst run. split.
    + intros d p body Hon Hdebug Hd Hp Hbody.
      apply strict_eq_false in Hon, Hdebug.
      rewrite Index_fetches, Hon, Hdebug.
      now apply (requests_of_merged _ _ d p).
    + intros url init Hin. apply in_fetches in Hin. rewrite Index_fetches in Hin.
      destruct (strict_eq _ _); [contradiction|].
      eapply requests_carry_merged; [reflexivity | exact Hin].
Qed.

End Merge.

(** C8, witness: a run of the version of index.ts in which the project
    fingerprint has a field named [eventType] itself.  The request is
    made, and its payload has the argument under [eventType], not the
    collected value. *)
Lemma call_supplied_fields_win_witness :
  let schemaField := fun _ : option string => ("eventType", VStr "collected") in
  let project :=
    [ ("gitOriginHash", VStr "origin-hashed");
      ("pathHash", VStr "path-hashed");
      ("eventType", VStr "collected");
      ("keystonePackages", VObj [("@keystonejs/keystone", VStr "1.2.3")]) ] in
  let eventData :=
    Mock.device ++
    [ ("gitOriginHash", VStr "origin-hashed");
      ("pathHash", VStr "path-hashed");
      ("eventType", VStr "test-event");
      ("keystonePackages", VObj [("@keystonejs/keystone", VStr "1.2.3")]);
      ("dbProvider", VStr "mydb") ] in
  let run := Index.sendTelemetryEvent Mock.runtime schemaField "test-event" "path"
               (Some "mydb") None ∅ in
  result (Index.projectInfo Mock.runtime schemaField "path" None ∅) = Normal project /\
  fetches (trace run)
  = [ ("https://telemetry.keystonejs.com/event",
       postJson (Mock.stringify (VObj eventData))) ] /\
  carries_merged Mock.runtime (postJson (Mock.stringify (VObj eventData)))
    (Normal Mock.device) (Normal project) (Some "mydb") "test-event".
Proof.
  intros schemaField project eventData run.
  pose proof (proj2 (proj2 (call_supplied_fields_win Mock.runtime ∅ "test-event" "path"
                              (Some "mydb"))) schemaField None) as [Hsent Hcarries].
  split; [reflexivity|]. split.
  - apply (Hsent Mock.device project (Mock.stringify (VObj eventData)));
      solve [reflexivity | vm_compute; discriminate].
  - apply (Hcarries "https://telemetry.keystonejs.com/event"
             (postJson (Mock.stringify (VObj eventData)))).
    apply in_fetches. vm_compute. left. reflexivity.
Defined.

(** The call-supplied values also win over a collected field of the same
    name. *)
Example call_supplied_over_collected :
  mergeEventData [("eventType", VStr "collected")] [("dbProvider", VStr "collected")]
    (Some "postgresql") "dev"
  = [("eventType", VStr "dev"); ("dbProvider", VStr "postgresql")].
Proof. reflexivity. Qed.

(** ** The disable state of the [KEYSTONE_]-prefixed version *)

Section DisableState.

Context (rt : Runtime).

(** The import, statement by statement: it stops at the exception of
    [new Conf()] or of [userConfig.get], and otherwise writes the switches. *)
Lemma moduleInit_run env :
  Keystone.moduleInit rt env =
  match new_Conf rt with
  | Throw e => (Throw e, env, [])
  | Normal _ =>
      match conf_get rt "telemetry.disabled" with
      | Throw e => (Throw e, env, [])
      | Normal v =>
          let env1 :=
            if truthy v then <["KEYSTONE_TELEMETRY_DISABLED" := "1"]> env else env in
          (Normal tt,
           if strict_eq (env1 !! "KEYSTONE_TELEMETRY_DISABLED") "1"
           then <["CHECKPOINT_DISABLE" := "1"]> (<["NEXT_TELEMETRY_DISABLED" := "1"]> env1)
           else env1,
           [])
      end
  end.
Proof.
  unfold Keystone.moduleInit, Keystone.userConfig, Keystone.userTelemetryDisabled,
    bind, lift, getenv, setenv, ret.
  destruct (new_Conf rt) as [[]|e]; [|reflexivity].
  destruct (conf_get rt "telemetry.disabled") as [v|e]; [|reflexivity].
  cbv zeta. destruct (truthy v); cbn [fst snd];
    destruct (strict_eq _ _); reflexivity.
Qed.

(** The import of a process whose store opens and holds [v] under
    [telemetry.disabled]. *)
Lemma moduleInit_readable env v :
  new_Conf rt = Normal tt ->
  conf_get rt "telemetry.disabled" = Normal v ->
  Keystone.moduleInit rt env =
  let env1 := if truthy v then <["KEYSTONE_TELEMETRY_DISABLED" := "1"]> env else env in
  (Normal tt,
   if strict_eq (env1 !! "KEYSTONE_TELEMETRY_DISABLED") "1"
   then <["CHECKPOINT_DISABLE" := "1"]> (<["NEXT_TELEMETRY_DISABLED" := "1"]> env1)
   else env1,
   []).
Proof. intros Hopen Hget. rewrite moduleInit_run, Hopen, Hget. reflexivity. Qed.

(** The import of a process whose store cannot be opened or read. *)
Lemma moduleInit_unreadable env e :
  new_Conf rt = Throw e \/
  (new_Conf rt = Normal tt /\ conf_get rt "telemetry.disabled" = Throw e) ->
  Keystone.moduleInit rt env = (Throw e, env, []).
Proof.
  intros [Hopen | [Hopen Hget]]; rewrite moduleInit_run, Hopen; [|rewrite Hget]; reflexivity.
Qed.

(** What the import leaves when telemetry is switched off. *)
Lemma moduleInit_on env v :
  new_Conf rt = Normal tt ->
  conf_get rt "telemetry.disabled" = Normal v ->
  truthy v = true \/ env !! "KEYSTONE_TELEMETRY_DISABLED" = Some "1" ->
  Keystone.moduleInit rt env
  = (Normal tt,
     <["CHECKPOINT_DISABLE" := "1"]>
       (<["NEXT_TELEMETRY_DISABLED" := "1"]>
          (<["KEYSTONE_TELEMETRY_DISABLED" := "1"]> env)),
     []).
Proof.
  intros Hopen Hget Hon. rewrite (moduleInit_readable env v Hopen Hget). cbv zeta.
  destruct Hon as [Hconf | Henv].
  - rewrite Hconf. now rewrite lookup_insert_eq.
  - destruct (truthy v).
    + now rewrite lookup_insert_eq.
    + rewrite (insert_id env _ _ Henv).
      apply strict_eq_true in Henv. now rewrite Henv.
Qed.

(** No call writes to [process.env]. *)
Lemma sendAll_env calls env : env_after (sendAll rt calls env) = env.
Proof.
  induction calls as [|c rest IH]; [reflexivity|].
  cbn [sendAll]. unfold bind. rewrite Keystone_send_run.
  specialize IH. unfold env_after in *.
  destruct (sendAll rt rest env) as [[r e] t]. simpl in *. now subst.
Qed.



(** Without the hypothesis of C9 too, no call of [sendTelemetryEvent]
    changes the environment the import left. *)
Lemma disable_state_never_mutated env calls :
  env_after (sendAll rt calls (env_after (Keystone.moduleInit rt env)))
  = env_after (Keystone.moduleInit rt env).
Proof. apply sendAll_env. Qed.

End DisableState.



(** ** The legacy version: the project field *)

Section LegacyProject.

Context (rt : Runtime).

Lemma Legacy_fetches event environment cwd prismaSchema env :
  fetches (trace (Legacy.sendTelemetryEvent rt event environment cwd prismaSchema env)) =
  if strict_eq (env !! "TELEMETRY_DISABLED") "true" then []
  else
    match result (Legacy.eventData rt event environment cwd prismaSchema env) with
    | Normal eventData =>
        match JSON_stringify rt (VObj eventData) with
        | Normal body =>
            [ (or_default (env !! "TELEMETRY_ENDPOINT") (defaults_telemetryEndpoint rt)
                 +:+ "/event", postJson body) ]
        | Throw _ => []
        end
    | Throw _ => []
    end.
Proof.
  rewrite Legacy_send_run. unfold trace at 1; cbn [snd].
  destruct (strict_eq _ _); [reflexivity|].
  destruct (Legacy_eventData_run rt event environment cwd prismaSchema env) as [_ Hq].
  apply collection_quiet in Hq as (Hq & _ & _).
  rewrite fetches_app, Hq.
  destruct (result _); [apply fetches_sent | reflexivity].
Qed.

Lemma Legacy_eventData_project event environment cwd prismaSchema env eventData :
  result (Legacy.eventData rt event environment cwd prismaSchema env) = Normal eventData ->
  obj_get "project" eventData
  = Some (VStr (or_default (env !! "TELEMETRY_PROJECT") (hashText rt cwd))).
Proof.
  unfold Legacy.eventData, bind, perform, get_env, ret, result.
  destruct (machineIdSync rt), (os_platform rt); cbn [fst];
    intros H; inversion H; reflexivity.
Qed.

(** C10: in the version taking (event, environment, cwd, prismaSchema),
    the payload of every request has as [project] the value of
    [TELEMETRY_PROJECT] itself, unhashed, when that variable is set and not
    empty, and the hash of [cwd] when it is unset or empty. *)
Theorem legacy_project_field (env : Env) (event environment cwd : string)
    (prismaSchema : option string) (url : string) (init : RequestInit) :
  In (EvFetch url init)
    (trace (Legacy.sendTelemetryEvent rt event environment cwd prismaSchema env)) ->
  exists eventData,
    result (Legacy.eventData rt event environment cwd prismaSchema env) = Normal eventData /\
    JSON_stringify rt (VObj eventData) = Normal (body init) /\
    (forall s, env !! "TELEMETRY_PROJECT" = Some s -> s <> "" ->
               obj_get "project" eventData = Some (VStr s)) /\
    (env !! "TELEMETRY_PROJECT" = None \/ env !! "TELEMETRY_PROJECT" = Some "" ->
     obj_get "project" eventData = Some (VStr (hashText rt cwd))).
Proof.
  intros Hin. apply in_fetches in Hin. rewrite Legacy_fetches in Hin.
  destruct (strict_eq _ _); [contradiction|].
  destruct (result _) as [eventData|] eqn:Hed; [|contradiction].
  destruct (JSON_stringify rt _) as [body|] eqn:Hbody; [|contradiction].
  destruct Hin as [[= _ <-]|[]].
  exists eventData. repeat split; try assumption.
  - intros s Hs Hne. rewrite (Legacy_eventData_project _ _ _ _ _ _ Hed).
    now rewrite (proj1 (or_default_cases _ _) s Hs Hne).
  - intros Hs. rewrite (Legacy_eventData_project _ _ _ _ _ _ Hed).
    now rewrite (proj2 (or_default_cases _ _) Hs).
Qed.

End LegacyProject.

(** C10, witness: [TELEMETRY_PROJECT=my-shop] with the test doubles. *)
Lemma legacy_project_field_witness :
  let env : Env := {[ "TELEMETRY_PROJECT" := "my-shop" ]} in
  exists eventData,
    result (Legacy.eventData Mock.runtime "test-event" "development" "/home/me/shop"
              (Some "unique-schema") env) = Normal eventData /\
    obj_get "project" eventData = Some (VStr "my-shop").
Proof.
  intros env.
  destruct (legacy_project_field Mock.runtime env "test-event" "development"
              "/home/me/shop" (Some "unique-schema")
              "https://telemetry.keystonejs.com/event"
              (postJson (Mock.stringify (VObj
                 [ ("device", VStr "device-hashed");
                   ("project", VStr "my-shop");
                   ("schema", VStr "unique-schema-hashed");
                   ("keystoneVersion", VUndefined);
                   ("environment", VStr "development");
                   ("os", VStr "keystone-os");
                   ("osLanguage", VUndefined);
                   ("event", VStr "test-event") ]))))
    as (eventData & Hed & _ & Hset & _).
  - apply in_fetches. vm_compute. left. reflexivity.
  - exists eventData. split; [exact Hed|].
    apply (Hset "my-shop"); [reflexivity | discriminate].
Defined.

(** ** The locale *)

Lemma indexOf_range c s : indexOf c s = -1 \/ 0 <= indexOf c s.
Proof.
  induction s as [|a rest IH]; simpl; [now left|].
  destruct (Ascii.eqb a c); [right; lia|].
  destruct (Z.ltb_spec (indexOf c rest) 0); [now left | right; lia].
Qed.

Lemma indexOf_before c s :
  (if indexOf c s >? -1 then substring0 (indexOf c s) s else s) = before c s.
Proof.
  induction s as [|a rest IH]; simpl; [reflexivity|].
  destruct (Ascii.eqb a c); [reflexivity|].
  destruct (indexOf_range c rest) as [Hneg | Hpos].
  - rewrite Hneg in *. simpl in *. now rewrite <- IH.
  - destruct (Z.ltb_spec (indexOf c rest) 0); [lia|].
    destruct (Z.gtb_spec (indexOf c rest) (-1)) as [_|]; [|lia].
    destruct (Z.gtb_spec (indexOf c rest + 1) (-1)) as [_|]; [|lia].
    rewrite <- IH. unfold substring0.
    replace (Z.to_nat (indexOf c rest + 1)) with (S (Z.to_nat (indexOf c rest))) by lia.
    reflexivity.
Qed.

Lemma js_or_l a b : truthy_str a = true -> a ||| b = a.
Proof. unfold js_or. now intros ->. Qed.

Lemma js_or_r a b : truthy_str a = false -> a ||| b = b.
Proof. unfold js_or. now intros ->. Qed.

(** A chain [a || b || ...] of environment lookups is truthy exactly when
    some variable is set and not empty, and then it is that value. *)
Lemma js_or_chain (vars : list string) (env : Env) (acc : option string) :
  let chain := fold_left (fun a var => a ||| env !! var) vars acc in
  if truthy_str acc then chain = acc
  else match first_nonempty vars env with
       | Some v => chain = Some v /\ v <> ""
       | None => truthy_str chain = false
       end.
Proof.
  revert acc. induction vars as [|var rest IH]; intros acc; cbn [fold_left first_nonempty].
  - destruct (truthy_str acc) eqn:E; reflexivity.
  - destruct (truthy_str acc) eqn:E.
    + rewrite (js_or_l _ _ E). specialize (IH acc). cbv zeta in IH. now rewrite E in IH.
    + rewrite (js_or_r _ _ E). specialize (IH (env !! var)). cbv zeta in IH.
      destruct (env !! var) as [v|]; cbn [truthy_str] in IH; [|exact IH].
      destruct (String.eqb v "") eqn:Hempty; cbn [negb] in IH; [exact IH|].
      split; [exact IH | now apply String.eqb_neq].
Qed.

Section Locale.

Context (rt : Runtime).

(** C7, amended: the locale of [deviceInfo] is the first value that is set
    and not empty among [LC_ALL], [LC_MESSAGES], [LANG], [LANGUAGE] and
    [LC_NAME], in this order, cut at its first ["."] ([en_AU.UTF8] gives
    [en_AU]); it is null when none of the five is set and not empty; and
    it is computed without throwing, whatever the values. *)
Theorem locale_precedence (env : Env) :
  locale env
  = locale_by_precedence ["LC_ALL"; "LC_MESSAGES"; "LANG"; "LANGUAGE"; "LC_NAME"] env /\
  (forall device,
     result (deviceInfo rt env) = Normal device ->
     obj_get "locale" device = Some (locale env)) /\
  locale {[ "LC_ALL" := "en_AU.UTF8" ]} = VStr "en_AU".
Proof.
  split; [|split].
  - pose proof (js_or_chain ["LC_ALL"; "LC_MESSAGES"; "LANG"; "LANGUAGE"; "LC_NAME"]
                  env None) as H.
    cbv zeta in H. cbn [truthy_str fold_left] in H.
    change (None ||| env !! "LC_ALL") with (env !! "LC_ALL") in H.
    unfold locale, locale_by_precedence. cbv zeta.
    destruct (first_nonempty _ env) as [v|].
    + destruct H as [-> Hne]. cbn [truthy_str].
      apply String.eqb_neq in Hne. rewrite Hne. cbn [negb].
      now rewrite indexOf_before.
    + now rewrite H.
  - unfold deviceInfo, bind, perform, get_env, ret, result.
    destruct (machineIdSync rt), (os_platform rt), (os_release rt); cbn [fst];
      intros device H; inversion H; reflexivity.
  - vm_compute. reflexivity.
Qed.

End Locale.

(** C7, counterexample: with [LC_NAME] alone the locale is taken from it,
    where the four variables of the claim give null. *)
Lemma locale_falls_back_to_LC_NAME :
  let env : Env := {[ "LC_NAME" := "fr_FR.UTF-8" ]} in
  locale env = VStr "fr_FR" /\
  locale_by_precedence ["LC_ALL"; "LC_MESSAGES"; "LANG"; "LANGUAGE"] env = VNull.
Proof. vm_compute. split; reflexivity. Qed.

(** ** The git origin *)

Lemma append_cons a s t : String a s +:+ t = String a (s +:+ t).
Proof. reflexivity. Qed.

Lemma append_nil s : "" +:+ s = s.
Proof. reflexivity. Qed.

Lemma stripTrailingNewline_LF s : stripTrailingNewline (s +:+ LF) = s.
Proof.
  induction s as [|a rest IH]; [reflexivity|].
  rewrite append_cons.
  destruct (rest +:+ LF) as [|b tail] eqn:E; [destruct rest; discriminate|].
  change (String a (stripTrailingNewline (String b tail)) = String a rest).
  now rewrite IH.
Qed.

(** A text that ends in something other than a line feed is kept. *)
Lemma stripTrailingNewline_keep a c b :
  c <> newline -> stripTrailingNewline b = b ->
  stripTrailingNewline (a +:+ String c b) = a +:+ String c b.
Proof.
  intros Hc Hb.
  assert (Hs : stripTrailingNewline (String c b) = String c b).
  { cbn [stripTrailingNewline]. destruct b; [|now rewrite Hb].
    destruct (Ascii.eqb_spec c newline); [contradiction | reflexivity]. }
  induction a as [|x rest IH]; [exact Hs|].
  rewrite append_cons.
  destruct (rest +:+ String c b) as [|y tail] eqn:E; [destruct rest; discriminate|].
  change (String x (stripTrailingNewline (String y tail)) = String x (String y tail)).
  now rewrite IH.
Qed.

Lemma replace_first_at a b h p :
  occurs a h = false ->
  replace_first a b (h +:+ String a p) = h +:+ String b p.
Proof.
  induction h as [|x rest IH]; rewrite ?append_cons, ?append_nil;
    cbn [replace_first occurs].
  - intros _. now rewrite Ascii.eqb_refl.
  - intros H. apply orb_false_elim in H as [Hx Hrest].
    rewrite Hx. now rewrite IH.
Qed.

Lemma after_userinfo_none h p :
  occurs "@" h = false -> after_userinfo (h +:+ String "/" p) = None.
Proof.
  induction h as [|x rest IH]; rewrite ?append_cons, ?append_nil;
    cbn [after_userinfo occurs].
  - reflexivity.
  - intros H. apply orb_false_elim in H as [Hx Hrest].
    rewrite Hx. destruct (Ascii.eqb x "/"); [reflexivity | now apply IH].
Qed.

Lemma after_userinfo_some u r :
  occurs "@" u = false -> occurs "/" u = false ->
  after_userinfo (u +:+ String "@" r) = Some r.
Proof.
  induction u as [|x rest IH]; rewrite ?append_cons, ?append_nil;
    cbn [after_userinfo occurs].
  - reflexivity.
  - intros H1 H2. apply orb_false_elim in H1 as [Hx1 Hrest1].
    apply orb_false_elim in H2 as [Hx2 Hrest2].
    rewrite Hx1, Hx2. now apply IH.
Qed.

Lemma append_nonempty_r a c b : a +:+ String c b <> "".
Proof. destruct a; discriminate. Qed.

Lemma append_assoc' a b c : (a +:+ b) +:+ c = a +:+ (b +:+ c).
Proof.
  induction a as [|x rest IH]; [reflexivity|].
  now rewrite !append_cons, IH.
Qed.

Section GitOrigin.

Context (rt : Runtime).

Lemma normalize_forms user host path origin :
  remote_parts user host path ->
  In origin (remoteForms user host path) ->
  normalizeGitOrigin origin = host +:+ "/" +:+ path /\
  stripTrailingNewline origin = origin /\
  origin <> "".
Proof.
  intros (Hat & Hcolon & Huat & Huslash & Hpath) Hin.
  assert (Hkeep : forall pre c, c <> newline ->
            stripTrailingNewline (pre +:+ host +:+ String c path)
            = pre +:+ host +:+ String c path).
  { intros pre c Hc. rewrite <- append_assoc'. now apply stripTrailingNewline_keep. }
  assert (Hkeep' : forall pre c, c <> newline ->
            stripTrailingNewline (pre +:+ user +:+ "@" +:+ host +:+ String c path)
            = pre +:+ user +:+ "@" +:+ host +:+ String c path).
  { intros pre c Hc. rewrite <- !append_assoc'. now apply stripTrailingNewline_keep. }
  unfold remoteForms in Hin. cbn [In] in Hin.
  destruct Hin as [<- | [<- | [<- | [<- | []]]]].
  - split; [|split].
    + unfold normalizeGitOrigin, sshForm. rewrite !append_cons, !append_nil.
      cbn [strip_prefix Ascii.eqb Bool.eqb]. now apply replace_first_at.
    + unfold sshForm. change (":" +:+ path) with (String ":" path).
      apply Hkeep. discriminate.
    + discriminate.
  - split; [|split].
    + unfold normalizeGitOrigin, httpsForm. rewrite !append_cons, !append_nil.
      cbn [strip_prefix Ascii.eqb Bool.eqb]. unfold strip_user.
      now rewrite after_userinfo_none.
    + unfold httpsForm. change ("/" +:+ path) with (String "/" path).
      apply Hkeep. discriminate.
    + discriminate.
  - split; [|split].
    + unfold normalizeGitOrigin, httpForm. rewrite !append_cons, !append_nil.
      cbn [strip_prefix Ascii.eqb Bool.eqb]. unfold strip_user.
      now rewrite after_userinfo_none.
    + unfold httpForm. change ("/" +:+ path) with (String "/" path).
      apply Hkeep. discriminate.
    + discriminate.
  - split; [|split].
    + unfold normalizeGitOrigin, httpsUserForm. rewrite !append_cons, !append_nil.
      cbn [strip_prefix Ascii.eqb Bool.eqb]. unfold strip_user.
      now rewrite after_userinfo_some.
    + unfold httpsUserForm. change ("/" +:+ path) with (String "/" path).
      apply Hkeep'. discriminate.
    + discriminate.
Qed.

Lemma originHash_of_form user host path origin :
  remote_parts user host path ->
  In origin (remoteForms user host path) ->
  originHash rt origin = VStr (hashText rt (host +:+ "/" +:+ path)) /\
  originHash rt (origin +:+ LF) = VStr (hashText rt (host +:+ "/" +:+ path)).
Proof.
  intros Hparts Hin.
  destruct (normalize_forms _ _ _ _ Hparts Hin) as (Hn & Hs & Hne).
  unfold originHash. cbv zeta. rewrite stripTrailingNewline_LF, Hs.
  apply String.eqb_neq in Hne. now rewrite Hne, Hn.
Qed.

Lemma projectInfo_gitOriginHash cwd lists env :
  exists project,
    result (projectInfo rt cwd lists env) = Normal project /\
    obj_get "gitOriginHash" project
    = Some match execSync_gitOrigin rt cwd with
           | Normal originBuffer => originHash rt originBuffer
           | Throw _ => VNull
           end /\
    obj_get "pathHash" project = Some (VStr (hashText rt cwd)).
Proof.
  unfold projectInfo. rewrite projectInfoWith_run.
  eexists. split; [reflexivity|].
  cbn [fst snd]. split; now rewrite !obj_get_set_ne by discriminate.
Qed.

End GitOrigin.

Section GitOriginClaim.

Context (rt : Runtime).

(** C4: for a host and a path, with the user name of the fourth form, the
    four ways of writing the remote (ssh [git@host:path], [https://host/path],
    [http://host/path], [https://user@host/path]) normalise to [host/path],
    so that [projectInfo] reports the same [gitOriginHash], the hash of
    [host/path], for each of them, with or without a line feed after the
    URL; an empty output of git gives [null]. *)
Theorem git_origin_forms_agree (user host path : string) :
  remote_parts user host path ->
  (forall origin,
     In origin (remoteForms user host path) ->
     normalizeGitOrigin origin = host +:+ "/" +:+ path /\
     forall cwd lists env,
       execSync_gitOrigin rt cwd = Normal origin \/
       execSync_gitOrigin rt cwd = Normal (origin +:+ LF) ->
       exists project,
         result (projectInfo rt cwd lists env) = Normal project /\
         obj_get "gitOriginHash" project
         = Some (VStr (hashText rt (host +:+ "/" +:+ path)))) /\
  (forall cwd lists env,
     execSync_gitOrigin rt cwd = Normal "" ->
     exists project,
       result (projectInfo rt cwd lists env) = Normal project /\
       obj_get "gitOriginHash" project = Some VNull).
Proof.
  intros Hparts. split.
  - intros origin Hin. split; [now apply (normalize_forms user host path)|].
    intros cwd lists env Hgit.
    destruct (projectInfo_gitOriginHash rt cwd lists env) as (project & Hp & Hg & _).
    exists project. split; [exact Hp|]. rewrite Hg.
    destruct (originHash_of_form rt _ _ _ _ Hparts Hin) as [H1 H2].
    destruct Hgit as [-> | ->]; congruence.
  - intros cwd lists env Hgit.
    destruct (projectInfo_gitOriginHash rt cwd lists env) as (project & Hp & Hg & _).
    exists project. split; [exact Hp|]. now rewrite Hg, Hgit.
Qed.

End GitOriginClaim.

(** C4, witness: the ssh URL of the tests, printed with a line feed. *)
Lemma git_origin_forms_agree_witness :
  let rt := Mock.world VUndefined
              (Normal ("git@github.com:keystone/keystone.git" +:+ LF)) Mock.resolved in
  normalizeGitOrigin "git@github.com:keystone/keystone.git"
  = "github.com/keystone/keystone.git" /\
  exists project,
    result (projectInfo rt "path" None ∅) = Normal project /\
    obj_get "gitOriginHash" project = Some (VStr "github.com/keystone/keystone.git-hashed").
Proof.
  intros rt.
  assert (Hparts : remote_parts "username" "github.com" "keystone/keystone.git")
    by (repeat split; reflexivity).
  destruct (proj1 (git_origin_forms_agree rt "username" "github.com"
                     "keystone/keystone.git" Hparts)
              "git@github.com:keystone/keystone.git" (or_introl eq_refl))
    as [Hn Hp].
  split; [exact Hn|].
  exact (Hp "path" None ∅ (or_intror eq_refl)).
Defined.

(** The six origins of the test
    [normalize git origin works with different git urls]. *)
Example normalize_git_origin_test :
  map (originHash Mock.runtime)
    [ "git@github.com:keystone/keystone.git";
      "https://github.com/keystone/keystone.git";
      "http://github.com/keystone/keystone.git";
      "https://username@github.com/keystone/keystone.git";
      "";
      "git@github.com:keystone/keystone.git" +:+ LF ]
  = [ VStr "github.com/keystone/keystone.git-hashed";
      VStr "github.com/keystone/keystone.git-hashed";
      VStr "github.com/keystone/keystone.git-hashed";
      VStr "github.com/keystone/keystone.git-hashed";
      VNull;
      VStr "github.com/keystone/keystone.git-hashed" ].
Proof. reflexivity. Qed.

(** ** What leaves the process *)

Section Hashed.

Context (rt : Runtime).






End Hashed.



(** ** Further properties of every version *)

Section EveryVersion.

Context (rt : Runtime).

Lemma sent_at_most_one url payload : (length (fetches (sent rt url payload)) <= 1)%nat.
Proof. rewrite fetches_sent. destruct (JSON_stringify rt _); simpl; lia. Qed.

Lemma requests_at_most_one device project dbProvider eventType debug url :
  (length (requests rt device project dbProvider eventType debug url) <= 1)%nat.
Proof.
  unfold requests. destruct device; [|simpl; lia]. destruct project; [|simpl; lia].
  destruct debug; [simpl; lia|]. destruct (JSON_stringify rt _); simpl; lia.
Qed.

(** X1: a call of any version issues one request at most: there is no
    retry and no queue. *)
Theorem at_most_one_request (env : Env) :
  (forall eventType cwd dbProvider lists,
     (length (fetches (trace (Keystone.sendTelemetryEvent rt eventType cwd dbProvider
                                lists env))) <= 1)%nat) /\
  (forall eventType cwd dbProvider lists,
     (length (fetches (trace (V1.sendTelemetryEvent rt eventType cwd dbProvider
                                lists env))) <= 1)%nat) /\
  (forall schemaField eventType cwd dbProvider prismaSchema,
     (length (fetches (trace (Index.sendTelemetryEvent rt schemaField eventType cwd
                                dbProvider prismaSchema env))) <= 1)%nat) /\
  (forall event environment cwd prismaSchema,
     (length (fetches (trace (Legacy.sendTelemetryEvent rt event environment cwd
                                prismaSchema env))) <= 1)%nat) /\
  (forall importEnv event environment cwd prismaSchema lists,
     (length (fetches (trace (LegacyLists.sendTelemetryEvent rt importEnv event
                                environment cwd prismaSchema lists env))) <= 1)%nat).
Proof.
  split; [|split; [|split; [|split]]].
  - intros. rewrite Keystone_fetches. destruct (strict_eq _ _); [simpl; lia|].
    apply requests_at_most_one.
  - intros. rewrite V1_fetches. destruct (strict_eq _ _); [simpl; lia|].
    apply requests_at_most_one.
  - intros. rewrite Index_fetches. destruct (strict_eq _ _); [simpl; lia|].
    apply requests_at_most_one.
  - intros. rewrite Legacy_fetches. destruct (strict_eq _ _); [simpl; lia|].
    destruct (result _); [|simpl; lia]. destruct (JSON_stringify rt _); simpl; lia.
  - intros importEnv ev environment cwd prismaSchema lists.
    rewrite LegacyLists_send_run. unfold trace at 1; cbn [snd].
    destruct (strict_eq _ _); [simpl; lia|].
    destruct (LegacyLists_eventData_run rt ev environment cwd prismaSchema lists env)
      as [_ Hq].
    apply collection_quiet in Hq as (Hq & _ & _).
    rewrite fetches_app, Hq. cbn [app].
    destruct (result _); [apply sent_at_most_one | simpl; lia].
Qed.

(** X2: no version of [sendTelemetryEvent] writes to [process.env]. *)
Theorem sendTelemetryEvent_keeps_env (env : Env) :
  (forall eventType cwd dbProvider lists,
     env_after (Keystone.sendTelemetryEvent rt eventType cwd dbProvider lists env) = env) /\
  (forall eventType cwd dbProvider lists,
     env_after (V1.sendTelemetryEvent rt eventType cwd dbProvider lists env) = env) /\
  (forall schemaField eventType cwd dbProvider prismaSchema,
     env_after (Index.sendTelemetryEvent rt schemaField eventType cwd dbProvider
                  prismaSchema env) = env) /\
  (forall event environment cwd prismaSchema,
     env_after (Legacy.sendTelemetryEvent rt event environment cwd prismaSchema env) = env) /\
  (forall importEnv event environment cwd prismaSchema lists,
     env_after (LegacyLists.sendTelemetryEvent rt importEnv event environment cwd
                  prismaSchema lists env) = env).
Proof.
  repeat split; intros.
  - now rewrite Keystone_send_run.
  - now rewrite V1_send_run.
  - now rewrite Index_send_run.
  - now rewrite Legacy_send_run.
  - now rewrite LegacyLists_send_run.
Qed.

End EveryVersion.

(** ** The tests of the repository, run on the model *)

(** [sendTelemetryEvent uses endpoint override] *)
Example test_endpoint_override :
  map fst (fetches (trace (V1.sendTelemetryEvent Mock.runtime "test-event" "path"
                             (Some "mydb") (Some Mock.lists)
                             {[ "TELEMETRY_ENDPOINT" := "https://keylemetry.com" ]})))
  = ["https://keylemetry.com/v1/event"].
Proof. reflexivity. Qed.

(** [sendTelemetryEvent doesn't fetch when telemetry is disabled] *)
Example test_disabled :
  fetches (trace (V1.sendTelemetryEvent Mock.runtime "test-event" "path" (Some "mydb") None
                    {[ "TELEMETRY_DISABLED" := "1" ]})) = [].
Proof. reflexivity. Qed.

(** [fetch throwing an error wont bubble up]: the request is attempted and
    the call returns. *)
Example test_fetch_throws :
  let run := V1.sendTelemetryEvent Mock.fetch_throws "test-event" "path" (Some "mydb")
               None ∅ in
  result run = Normal tt /\
  map fst (fetches (trace run)) = ["https://telemetry.keystonejs.com/v1/event"].
Proof. split; reflexivity. Qed.

(** A rejected promise is handled by the chain. *)
Example test_fetch_rejects :
  let run := Index.sendTelemetryEvent Mock.fetch_rejects (fun _ => ("schema", VUndefined))
               "test-event" "path" (Some "mydb") None ∅ in
  result run = Normal tt /\ unhandled (trace run) = [] /\ logged (trace run) = [].
Proof. repeat split; reflexivity. Qed.

(** [TELEMETRY_DEBUG should log the output of telemetry but not fetch] *)
Example test_debug :
  let run := V1.sendTelemetryEvent Mock.runtime "test-event" "path" (Some "mydb")
               (Some Mock.lists) {[ "TELEMETRY_DEBUG" := "1" ]} in
  fetches (trace run) = [] /\ logged (trace run) = [[VObj Mock.eventData]].
Proof. split; reflexivity. Qed.

(** The legacy test [sendTelemetryEvent calls with expected data]: the
    project and the schema are sent hashed. *)
Example test_legacy_expected_data :
  let env : Env :=
    {[ "LC_ALL" := "keystone_AU";
       "npm_package_dependencies__keystone_next_keystone" := "1.0.0" ]} in
  fetches (trace (Legacy.sendTelemetryEvent Mock.runtime "test-event" "development"
                    "unique-project" (Some "unique-schema") env))
  = [ ("https://telemetry.keystonejs.com/event",
       postJson (Mock.stringify (VObj
         [ ("device", VStr "device-hashed");
           ("project", VStr "unique-project-hashed");
           ("schema", VStr "unique-schema-hashed");
           ("keystoneVersion", VStr "1.0.0");
           ("environment", VStr "development");
           ("os", VStr "keystone-os");
           ("osLanguage", VStr "keystone_AU");
           ("event", VStr "test-event") ]))) ].
Proof. vm_compute. reflexivity. Qed.

(** * Further properties of the code *)

(** ** The locale of deviceInfo.ts *)

Lemma locale_is_by_precedence (env : Env) :
  locale env
  = locale_by_precedence ["LC_ALL"; "LC_MESSAGES"; "LANG"; "LANGUAGE"; "LC_NAME"] env.
Proof.
  pose proof (js_or_chain ["LC_ALL"; "LC_MESSAGES"; "LANG"; "LANGUAGE"; "LC_NAME"]
                env None) as H.
  cbv zeta in H. cbn [truthy_str fold_left] in H.
  change (None ||| env !! "LC_ALL") with (env !! "LC_ALL") in H.
  unfold locale, locale_by_precedence. cbv zeta.
  destruct (first_nonempty _ env) as [v|].
  - destruct H as [-> Hne]. cbn [truthy_str].
    apply String.eqb_neq in Hne. rewrite Hne. cbn [negb].
    now rewrite indexOf_before.
  - now rewrite H.
Qed.

Lemma before_no_occurs c s : occurs c (before c s) = false.
Proof.
  induction s as [|a rest IH]; [reflexivity|].
  cbn [before]. destruct (Ascii.eqb a c) eqn:E; [reflexivity|].
  cbn [occurs]. now rewrite E, IH.
Qed.

Lemma before_prefix c s :
  before c s = s \/ exists suffix, s = before c s +:+ String c suffix.
Proof.
  induction s as [|a rest IH]; [now left|].
  cbn [before]. destruct (Ascii.eqb_spec a c) as [->|Hne].
  - right. now exists rest.
  - destruct IH as [IH | [suffix IH]].
    + left. now rewrite IH.
    + right. exists suffix. rewrite append_cons. now rewrite <- IH.
Qed.

Lemma first_nonempty_found vars env v :
  first_nonempty vars env = Some v ->
  exists var, In var vars /\ env !! var = Some v /\ v <> "".
Proof.
  induction vars as [|var rest IH]; cbn [first_nonempty]; [discriminate|].
  destruct (env !! var) as [w|] eqn:Hw.
  - destruct (String.eqb w "") eqn:E.
    + intros H. destruct (IH H) as (var' & Hin & Hv & Hne).
      exists var'. repeat split; [now right | assumption | assumption].
    + intros [= <-]. exists var. apply String.eqb_neq in E.
      repeat split; [now left | assumption | assumption].
  - intros H. destruct (IH H) as (var' & Hin & Hv & Hne).
    exists var'. repeat split; [now right | assumption | assumption].
Qed.

(** X3: when the locale of [deviceInfo] is a string, it has no ["."] in
    it, and it is the non-empty value of one of the five locale variables,
    either whole or up to its first ["."]: the encoding suffix never
    reaches the payload, and nothing else of the value is dropped. *)
Theorem locale_strips_encoding (env : Env) (s : string) :
  locale env = VStr s ->
  occurs "." s = false /\
  exists var v,
    In var ["LC_ALL"; "LC_MESSAGES"; "LANG"; "LANGUAGE"; "LC_NAME"] /\
    env !! var = Some v /\ v <> "" /\
    (v = s \/ exists suffix, v = s +:+ "." +:+ suffix).
Proof.
  rewrite locale_is_by_precedence. unfold locale_by_precedence.
  destruct (first_nonempty _ env) as [v|] eqn:Hfirst; [|discriminate].
  intros [= <-]. split; [apply before_no_occurs|].
  destruct (first_nonempty_found _ _ _ Hfirst) as (var & Hin & Hv & Hne).
  exists var, v. repeat split; try assumption.
  destruct (before_prefix "." v) as [H | [suffix H]].
  - left. now rewrite H.
  - right. exists suffix. exact H.
Qed.

(** X3, an instance: [LANG=en_AU.UTF8]. *)
Lemma locale_strips_encoding_witness :
  occurs "." "en_AU" = false /\
  exists var v,
    In var ["LC_ALL"; "LC_MESSAGES"; "LANG"; "LANGUAGE"; "LC_NAME"] /\
    ({[ "LANG" := "en_AU.UTF8" ]} : Env) !! var = Some v /\ v <> "" /\
    (v = "en_AU" \/ exists suffix, v = "en_AU" +:+ "." +:+ suffix).
Proof.
  apply (locale_strips_encoding {[ "LANG" := "en_AU.UTF8" ]} "en_AU").
  reflexivity.
Defined.

(** ** The legacy payload *)

(** The value of a chain [a || b || ...] of environment lookups: the first
    truthy operand, or the last operand when none is truthy. *)
Lemma js_or_chain_value (vars : list string) (env : Env) (acc : option string) :
  fold_left (fun a var => a ||| env !! var) vars acc =
  if truthy_str acc then acc
  else match first_nonempty vars env with
       | Some v => Some v
       | None => last_operand vars env acc
       end.
Proof.
  revert acc. induction vars as [|var rest IH]; intros acc;
    cbn [fold_left first_nonempty last_operand].
  - now destruct (truthy_str acc).
  - rewrite IH. destruct (truthy_str acc) eqn:E.
    + rewrite (js_or_l _ _ E). now rewrite E.
    + rewrite (js_or_r _ _ E).
      destruct (env !! var) as [v|]; cbn [truthy_str]; [|reflexivity].
      now destruct (String.eqb v "").
Qed.

Section LegacyLanguage.

Context (rt : Runtime).

(** What the legacy versions send as [osLanguage]. *)
Lemma osLanguage_value (env : Env) :
  env !! "LC_ALL" ||| env !! "LC_MESSAGES" ||| env !! "LANG" ||| env !! "LANGUAGE"
  = match first_nonempty ["LC_ALL"; "LC_MESSAGES"; "LANG"; "LANGUAGE"] env with
    | Some v => Some v
    | None => env !! "LANGUAGE"
    end.
Proof.
  exact (js_or_chain_value ["LC_ALL"; "LC_MESSAGES"; "LANG"; "LANGUAGE"] env None).
Qed.

(** X4: the two legacy versions send as [osLanguage] the first of
    [LC_ALL], [LC_MESSAGES], [LANG], [LANGUAGE] that is set and not empty,
    as it stands: the encoding suffix is not cut off and [LC_NAME] is not
    looked at; when none of the four is set and not empty the field is
    what [LANGUAGE] holds, the empty string or [undefined]. *)
Theorem legacy_osLanguage_is_raw (env : Env) (event environment cwd : string)
    (prismaSchema : option string) :
  let osLanguage :=
    of_opt match first_nonempty ["LC_ALL"; "LC_MESSAGES"; "LANG"; "LANGUAGE"] env with
           | Some v => Some v
           | None => env !! "LANGUAGE"
           end in
  (forall eventData,
     result (Legacy.eventData rt event environment cwd prismaSchema env)
     = Normal eventData ->
     obj_get "osLanguage" eventData = Some osLanguage) /\
  (forall lists eventData,
     result (LegacyLists.eventData rt event environment cwd prismaSchema lists env)
     = Normal eventData ->
     obj_get "osLanguage" eventData = Some osLanguage).
Proof.
  intros osLanguage. subst osLanguage. rewrite <- osLanguage_value. split.
  - unfold Legacy.eventData, bind, perform, get_env, ret, result.
    destruct (machineIdSync rt), (os_platform rt); cbn [fst];
      intros eventData H; inversion H; reflexivity.
  - unfold LegacyLists.eventData, bind, perform, get_env, ret, result.
    destruct (machineIdSync rt), (os_platform rt); cbn [fst];
      intros lists eventData H; inversion H; reflexivity.
Qed.

End LegacyLanguage.

(** X4, an instance: [LANG=en_AU.UTF8] is sent with its suffix, where
    [deviceInfo] reports [en_AU]. *)
Lemma legacy_osLanguage_is_raw_witness :
  let env : Env := {[ "LANG" := "en_AU.UTF8" ]} in
  (exists eventData,
     result (Legacy.eventData Mock.runtime "dev" "development" "path" None env)
     = Normal eventData /\
     obj_get "osLanguage" eventData = Some (VStr "en_AU.UTF8")) /\
  locale env = VStr "en_AU".
Proof.
  intros env. split; [|reflexivity].
  eexists. split; [reflexivity|].
  exact (proj1 (legacy_osLanguage_is_raw Mock.runtime env "dev" "development" "path" None)
           _ eq_refl).
Defined.

Section LegacyListsFacts.

Context (rt : Runtime).

Lemma LegacyLists_fetches importEnv ev environment cwd prismaSchema lists env :
  fetches (trace (LegacyLists.sendTelemetryEvent rt importEnv ev environment cwd
                    prismaSchema lists env)) =
  if strict_eq (env !! "TELEMETRY_DISABLED") "true" then []
  else
    match result (LegacyLists.eventData rt ev environment cwd prismaSchema lists env) with
    | Normal eventData =>
        match JSON_stringify rt (VObj eventData) with
        | Normal body =>
            [ (LegacyLists.TELEMETRY_ENDPOINT importEnv +:+ "/event", postJson body) ]
        | Throw _ => []
        end
    | Throw _ => []
    end.
Proof.
  rewrite LegacyLists_send_run. unfold trace at 1; cbn [snd].
  destruct (strict_eq _ _); [reflexivity|].
  destruct (LegacyLists_eventData_run rt ev environment cwd prismaSchema lists env)
    as [_ Hq].
  apply collection_quiet in Hq as (Hq & _ & _).
  rewrite fetches_app, Hq.
  destruct (result _); [apply fetches_sent | reflexivity].
Qed.

(** X5: the version with the list count posts to the endpoint it read when
    the module was imported ([TELEMETRY_ENDPOINT] of that moment when set
    and not empty, [http://localhost:4000] otherwise), whatever
    [TELEMETRY_ENDPOINT] holds when the call is made; its payload has as
    [meta] the number of lists, or [undefined] when no lists are passed. *)
Theorem legacyLists_endpoint_is_fixed_at_import (importEnv env : Env)
    (ev environment cwd : string) (prismaSchema : option string)
    (lists : option ListSchemaConfig) (url : string) (init : RequestInit) :
  In (EvFetch url init)
    (trace (LegacyLists.sendTelemetryEvent rt importEnv ev environment cwd prismaSchema
              lists env)) ->
  url = match importEnv !! "TELEMETRY_ENDPOINT" with
        | Some endpoint => if String.eqb endpoint "" then "http://localhost:4000" else endpoint
        | None => "http://localhost:4000"
        end +:+ "/event" /\
  exists eventData,
    result (LegacyLists.eventData rt ev environment cwd prismaSchema lists env)
    = Normal eventData /\
    JSON_stringify rt (VObj eventData) = Normal (body init) /\
    obj_get "meta" eventData
    = Some match lists with
           | Some lists => VObj [("listCount", VNum (Z.of_nat (length lists)))]
           | None => VUndefined
           end.
Proof.
  intros Hin. apply in_fetches in Hin. rewrite LegacyLists_fetches in Hin.
  destruct (strict_eq _ _); [contradiction|].
  destruct (result _) as [eventData|] eqn:Hed; [|contradiction].
  destruct (JSON_stringify rt _) as [body|] eqn:Hbody; [|contradiction].
  destruct Hin as [[= <- <-]|[]].
  split; [reflexivity|].
  exists eventData. split; [reflexivity|]. split; [exact Hbody|].
  revert Hed. unfold LegacyLists.eventData, bind, perform, get_env, ret, result.
  destruct (machineIdSync rt), (os_platform rt); cbn [fst]; intros H; inversion H.
  cbn [obj_get String.eqb Ascii.eqb Bool.eqb]. unfold LegacyLists.meta, obj_keys_of.
  destruct lists; [now rewrite length_map | reflexivity].
Qed.

End LegacyListsFacts.

(** X5, an instance: the module was imported with no override, and
    [TELEMETRY_ENDPOINT] is set afterwards; the request still goes to
    [http://localhost:4000/event]. *)
Lemma legacyLists_endpoint_is_fixed_at_import_witness :
  let env : Env := {[ "TELEMETRY_ENDPOINT" := "https://keylemetry.com" ]} in
  let eventData :=
    [ ("device", VStr "device-hashed");
      ("project", VStr "path-hashed");
      ("schema", VUndefined);
      ("keystoneVersion", VUndefined);
      ("environment", VStr "development");
      ("os", VStr "keystone-os");
      ("osLanguage", VUndefined);
      ("event", VStr "dev");
      ("meta", VObj [("listCount", VNum 2)]) ] in
  "http://localhost:4000/event" = "http://localhost:4000" +:+ "/event" /\
  exists eventData',
    result (LegacyLists.eventData Mock.runtime "dev" "development" "path" None
              (Some Mock.lists) env) = Normal eventData' /\
    Normal (Mock.stringify (VObj eventData'))
    = Normal (Mock.stringify (VObj eventData)) /\
    obj_get "meta" eventData' = Some (VObj [("listCount", VNum 2)]).
Proof.
  intros env eventData.
  refine (legacyLists_endpoint_is_fixed_at_import Mock.runtime ∅ env "dev" "development"
            "path" None (Some Mock.lists) "http://localhost:4000/event"
            (postJson (Mock.stringify (VObj eventData))) _).
  apply in_fetches. vm_compute. left. reflexivity.
Defined.

(** ** The import of the [KEYSTONE_]-prefixed version *)

Section ImportTime.

Context (rt : Runtime).

(** An environment in which all three switches are on is left as it is. *)
Lemma moduleInit_fixed (env : Env) v :
  new_Conf rt = Normal tt ->
  conf_get rt "telemetry.disabled" = Normal v ->
  env !! "KEYSTONE_TELEMETRY_DISABLED" = Some "1" ->
  env !! "NEXT_TELEMETRY_DISABLED" = Some "1" ->
  env !! "CHECKPOINT_DISABLE" = Some "1" ->
  env_after (Keystone.moduleInit rt env) = env.
Proof.
  intros Hopen Hget HK HN HC.
  rewrite (moduleInit_on rt env v Hopen Hget (or_intror HK)).
  unfold env_after; cbn [fst snd].
  now rewrite (insert_id env _ _ HK), (insert_id env _ _ HN), (insert_id env _ _ HC).
Qed.

Lemma moduleInit_off (env : Env) v :
  new_Conf rt = Normal tt ->
  conf_get rt "telemetry.disabled" = Normal v ->
  truthy v = false ->
  env !! "KEYSTONE_TELEMETRY_DISABLED" <> Some "1" ->
  Keystone.moduleInit rt env = (Normal tt, env, []).
Proof.
  intros Hopen Hget Hconf Henv. apply strict_eq_false in Henv.
  rewrite (moduleInit_readable rt env v Hopen Hget). cbv zeta.
  rewrite Hconf, Henv. reflexivity.
Qed.

(** X6: the import writes to [process.env] only to switch telemetry off.
    When the store opens, the stored preference is not truthy and
    [KEYSTONE_TELEMETRY_DISABLED] is anything but ["1"] (unset, or ["true"],
    or ["0"]), the environment is left as it was, so neither the Next.js
    nor the Prisma switch is touched.  When [new Conf()] or
    [userConfig.get] throws, the import throws that error and has written
    nothing, whatever [KEYSTONE_TELEMETRY_DISABLED] holds.  And importing
    twice leaves what importing once leaves. *)
Theorem import_only_switches_off (env : Env) :
  (forall v,
     new_Conf rt = Normal tt ->
     conf_get rt "telemetry.disabled" = Normal v ->
     truthy v = false ->
     env !! "KEYSTONE_TELEMETRY_DISABLED" <> Some "1" ->
     Keystone.moduleInit rt env = (Normal tt, env, [])) /\
  (forall e,
     new_Conf rt = Throw e \/
     (new_Conf rt = Normal tt /\ conf_get rt "telemetry.disabled" = Throw e) ->
     Keystone.moduleInit rt env = (Throw e, env, [])) /\
  env_after (Keystone.moduleInit rt (env_after (Keystone.moduleInit rt env)))
  = env_after (Keystone.moduleInit rt env).
Proof.
  split; [apply moduleInit_off|]. split; [intros e; apply moduleInit_unreadable|].
  destruct (new_Conf rt) as [[]|e] eqn:Hopen.
  2: { rewrite !(moduleInit_unreadable rt _ e) by (left; exact Hopen). reflexivity. }
  destruct (conf_get rt "telemetry.disabled") as [v|e] eqn:Hget.
  2: { rewrite !(moduleInit_unreadable rt _ e) by (right; split; assumption).
       reflexivity. }
  assert (Hon : forall env0 : Env,
            truthy v = true \/ env0 !! "KEYSTONE_TELEMETRY_DISABLED" = Some "1" ->
            env_after (Keystone.moduleInit rt (env_after (Keystone.moduleInit rt env0)))
            = env_after (Keystone.moduleInit rt env0)).
  { intros env0 H. rewrite (moduleInit_on rt env0 v Hopen Hget H).
    unfold env_after at 2 3; cbn [fst snd].
    apply (moduleInit_fixed _ v Hopen Hget).
    - rewrite !lookup_insert_ne by discriminate. apply lookup_insert_eq.
    - rewrite lookup_insert_ne by discriminate. apply lookup_insert_eq.
    - apply lookup_insert_eq. }
  destruct (truthy v) eqn:Hconf; [apply Hon; now left|].
  destruct (strict_eq (env !! "KEYSTONE_TELEMETRY_DISABLED") "1") eqn:Henv.
  - apply Hon. right. now apply strict_eq_true.
  - apply strict_eq_false in Henv.
    rewrite (moduleInit_off env v Hopen Hget Hconf Henv).
    unfold env_after at 2 3; cbn [fst snd].
    now rewrite (moduleInit_off env v Hopen Hget Hconf Henv).
Qed.

End ImportTime.

(** X6, two instances: [KEYSTONE_TELEMETRY_DISABLED=true] with nothing
    stored: the import propagates nothing; and a store that cannot be read:
    the import throws and writes nothing. *)
Lemma import_only_switches_off_witness :
  let env : Env := {[ "KEYSTONE_TELEMETRY_DISABLED" := "true" ]} in
  Keystone.moduleInit Mock.runtime env = (Normal tt, env, []) /\
  env_after (Keystone.moduleInit Mock.runtime env) !! "NEXT_TELEMETRY_DISABLED" = None /\
  Keystone.moduleInit Mock.unreadable_store env
  = (Throw (VStr "EACCES: permission denied"), env, []).
Proof.
  intros env.
  assert (H : Keystone.moduleInit Mock.runtime env = (Normal tt, env, [])).
  { apply (proj1 (import_only_switches_off Mock.runtime env) VUndefined).
    - reflexivity.
    - reflexivity.
    - reflexivity.
    - vm_compute. discriminate. }
  split; [exact H|]. split; [rewrite H; reflexivity|].
  apply (proj1 (proj2 (import_only_switches_off Mock.unreadable_store env))).
  left. reflexivity.
Defined.

(** ** What the outcome of [fetch] changes *)

Section FetchOutcome.

Context (rt : Runtime).

(** X7: four of the five versions do nothing with what [fetch] does: with
    a [fetch] that fulfils, rejects or throws, the call returns the same,
    calls the same and logs the same.  The version of index.ts issues the
    same request and returns the same too; only its [catch] block, which
    logs, tells a [fetch] that throws from one that returns. *)
Theorem fetch_outcome_is_ignored (env : Env)
    (fetch1 fetch2 : string -> RequestInit -> completion settled) :
  (forall eventType cwd dbProvider lists,
     Keystone.sendTelemetryEvent (with_fetch rt fetch1) eventType cwd dbProvider lists env
     = Keystone.sendTelemetryEvent (with_fetch rt fetch2) eventType cwd dbProvider lists env) /\
  (forall eventType cwd dbProvider lists,
     V1.sendTelemetryEvent (with_fetch rt fetch1) eventType cwd dbProvider lists env
     = V1.sendTelemetryEvent (with_fetch rt fetch2) eventType cwd dbProvider lists env) /\
  (forall ev environment cwd prismaSchema,
     Legacy.sendTelemetryEvent (with_fetch rt fetch1) ev environment cwd prismaSchema env
     = Legacy.sendTelemetryEvent (with_fetch rt fetch2) ev environment cwd prismaSchema env) /\
  (forall importEnv ev environment cwd prismaSchema lists,
     LegacyLists.sendTelemetryEvent (with_fetch rt fetch1) importEnv ev environment cwd
       prismaSchema lists env
     = LegacyLists.sendTelemetryEvent (with_fetch rt fetch2) importEnv ev environment cwd
         prismaSchema lists env) /\
  (forall schemaField eventType cwd dbProvider prismaSchema,
     let run1 := Index.sendTelemetryEvent (with_fetch rt fetch1) schemaField eventType cwd
                   dbProvider prismaSchema env in
     let run2 := Index.sendTelemetryEvent (with_fetch rt fetch2) schemaField eventType cwd
                   dbProvider prismaSchema env in
     result run1 = result run2 /\
     env_after run1 = env_after run2 /\
     fetches (trace run1) = fetches (trace run2) /\
     ((forall url init, exists p1 p2,
          fetch1 url init = Normal p1 /\ fetch2 url init = Normal p2) ->
      run1 = run2)).
Proof.
  split; [|split; [|split; [|split]]].
  - intros. now rewrite !Keystone_send_run.
  - intros. now rewrite !V1_send_run.
  - intros. now rewrite !Legacy_send_run.
  - intros. now rewrite !LegacyLists_send_run.
  - intros schemaField eventType cwd dbProvider prismaSchema run1 run2.
    subst run1 run2. split; [|split; [|split]].
    + now rewrite !Index_send_run.
    + now rewrite !Index_send_run.
    + now rewrite !Index_fetches.
    + intros Hreturn. rewrite !Index_send_run.
      destruct (strict_eq (env !! "TELEMETRY_DISABLED") "true"); [reflexivity|].
      f_equal. unfold collect_then.
      change (deviceInfo (with_fetch rt fetch2)) with (deviceInfo (with_fetch rt fetch1)).
      change (Index.projectInfo (with_fetch rt fetch2))
        with (Index.projectInfo (with_fetch rt fetch1)).
      f_equal.
      destruct (result (deviceInfo (with_fetch rt fetch1) env)); [|reflexivity].
      f_equal.
      destruct (result (Index.projectInfo _ _ _ _ _)); [|reflexivity].
      cbv zeta. destruct (strict_eq (env !! "TELEMETRY_DEBUG") "1"); [reflexivity|].
      f_equal. unfold posted.
      change (JSON_stringify (with_fetch rt fetch2)) with (JSON_stringify rt).
      change (JSON_stringify (with_fetch rt fetch1)) with (JSON_stringify rt).
      destruct (JSON_stringify rt _) as [body|]; [|reflexivity].
      change (fetch (with_fetch rt fetch1)) with fetch1.
      change (fetch (with_fetch rt fetch2)) with fetch2.
      destruct (Hreturn (or_default (env !! "TELEMETRY_ENDPOINT")
                           (defaults_telemetryEndpoint (with_fetch rt fetch1)) +:+ "/event")
                  (postJson body)) as (p1 & p2 & H1 & H2).
      change (defaults_telemetryEndpoint (with_fetch rt fetch2))
        with (defaults_telemetryEndpoint (with_fetch rt fetch1)).
      now rewrite H1, H2.
Qed.

End FetchOutcome.

(** ** What is written to the console *)

Section Console.

Context (rt : Runtime).

Lemma Legacy_logged ev environment cwd prismaSchema env :
  logged (trace (Legacy.sendTelemetryEvent rt ev environment cwd prismaSchema env)) = [].
Proof.
  rewrite Legacy_send_run. unfold trace at 1; cbn [snd].
  destruct (strict_eq _ _); [reflexivity|].
  destruct (Legacy_eventData_run rt ev environment cwd prismaSchema env) as [_ Hq].
  apply collection_quiet in Hq as (_ & Hq & _).
  rewrite logged_app, Hq.
  destruct (result _); [apply logged_sent | reflexivity].
Qed.

Lemma LegacyLists_logged importEnv ev environment cwd prismaSchema lists env :
  logged (trace (LegacyLists.sendTelemetryEvent rt importEnv ev environment cwd
                   prismaSchema lists env)) = [].
Proof.
  rewrite LegacyLists_send_run. unfold trace at 1; cbn [snd].
  destruct (strict_eq _ _); [reflexivity|].
  destruct (LegacyLists_eventData_run rt ev environment cwd prismaSchema lists env)
    as [_ Hq].
  apply collection_quiet in Hq as (_ & Hq & _).
  rewrite logged_app, Hq.
  destruct (result _); [apply logged_sent | reflexivity].
Qed.

(** X8: outside debug mode, four of the five versions never write to the
    console, whatever fails.  The version of index.ts writes what its
    [catch] block caught, once, and nothing when nothing was thrown: a
    failing machine id, serialisation or [fetch] shows on the console of
    the user. *)
Theorem only_index_logs_failures (env : Env) :
  (forall eventType cwd dbProvider lists,
     env !! "KEYSTONE_TELEMETRY_DEBUG" <> Some "1" ->
     logged (trace (Keystone.sendTelemetryEvent rt eventType cwd dbProvider lists env))
     = []) /\
  (forall eventType cwd dbProvider lists,
     env !! "TELEMETRY_DEBUG" <> Some "1" ->
     logged (trace (V1.sendTelemetryEvent rt eventType cwd dbProvider lists env)) = []) /\
  (forall ev environment cwd prismaSchema,
     logged (trace (Legacy.sendTelemetryEvent rt ev environment cwd prismaSchema env))
     = []) /\
  (forall importEnv ev environment cwd prismaSchema lists,
     logged (trace (LegacyLists.sendTelemetryEvent rt importEnv ev environment cwd
                      prismaSchema lists env)) = []) /\
  (forall schemaField eventType cwd dbProvider prismaSchema,
     env !! "TELEMETRY_DISABLED" <> Some "true" ->
     env !! "TELEMETRY_DEBUG" <> Some "1" ->
     logged (trace (Index.sendTelemetryEvent rt schemaField eventType cwd dbProvider
                      prismaSchema env))
     = match index_failure rt schemaField eventType cwd dbProvider prismaSchema env with
       | Some err => [[err]]
       | None => []
       end).
Proof.
  split; [|split; [|split; [|split]]].
  - intros eventType cwd dbProvider lists Hdbg. apply strict_eq_false in Hdbg.
    rewrite Keystone_logged, Hdbg.
    destruct (strict_eq (env !! "KEYSTONE_TELEMETRY_DISABLED") "1"); [reflexivity|].
    destruct (result _); [|reflexivity]. now destruct (result _).
  - intros eventType cwd dbProvider lists Hdbg. apply strict_eq_false in Hdbg.
    rewrite V1_logged, Hdbg.
    destruct (strict_eq (env !! "TELEMETRY_DISABLED") "1"); [reflexivity|].
    destruct (result _); [|reflexivity]. now destruct (result _).
  - intros. apply Legacy_logged.
  - intros. apply LegacyLists_logged.
  - intros schemaField eventType cwd dbProvider prismaSchema Hdis Hdbg.
    apply strict_eq_false in Hdis, Hdbg.
    rewrite Index_logged, Hdis, Hdbg. unfold index_failure.
    destruct (result (deviceInfo rt env)); [|reflexivity].
    destruct (result (Index.projectInfo _ _ _ _ _)); [|reflexivity].
    now destruct (posted _ _ _).
Qed.

End Console.

(** X8, an instance: [fetch] throws; the version of index.ts logs the
    error, the version of part_000 logs nothing. *)
Lemma only_index_logs_failures_witness :
  logged (trace (Index.sendTelemetryEvent Mock.fetch_throws
                   (fun _ => ("schema", VUndefined)) "test-event" "path" (Some "mydb")
                   None ∅)) = [[VStr "Error"]] /\
  logged (trace (V1.sendTelemetryEvent Mock.fetch_throws "test-event" "path"
                   (Some "mydb") None ∅)) = [].
Proof.
  destruct (only_index_logs_failures Mock.fetch_throws ∅) as (_ & HV1 & _ & _ & HIndex).
  split.
  - rewrite HIndex; [reflexivity | |]; rewrite lookup_empty; discriminate.
  - apply HV1. rewrite lookup_empty. discriminate.
Defined.

(** ** The versions of part_000 against each other *)

Section Renaming.

Context (rt : Runtime).

(** [deviceInfo] reads the environment for the locale only. *)
Lemma deviceInfo_reads_locale_only env1 env2 :
  locale env1 = locale env2 ->
  result (deviceInfo rt env1) = result (deviceInfo rt env2) /\
  trace (deviceInfo rt env1) = trace (deviceInfo rt env2).
Proof.
  intros Hlocale.
  unfold deviceInfo, bind, perform, get_env, ret, result, trace.
  destruct (machineIdSync rt), (os_platform rt), (os_release rt); cbn [fst snd];
    rewrite ?Hlocale; split; reflexivity.
Qed.

Lemma projectInfo_ignores_env cwd lists env1 env2 :
  result (projectInfo rt cwd lists env1) = result (projectInfo rt cwd lists env2) /\
  trace (projectInfo rt cwd lists env1) = trace (projectInfo rt cwd lists env2).
Proof. unfold projectInfo. now rewrite !projectInfoWith_run. Qed.

(** X9: the [KEYSTONE_]-prefixed version is the [/v1/event] version under
    other variable names.  In two environments that tell the same through
    the respective three variables and give the same locale, the two
    versions issue the same requests; and outside debug mode, where the
    newer version also prints the URL, they make the same calls
    altogether. *)
Theorem keystone_prefix_is_a_renaming (env env' : Env) (eventType cwd : string)
    (dbProvider : option string) (lists : option ListSchemaConfig) :
  env' !! "TELEMETRY_DISABLED" = env !! "KEYSTONE_TELEMETRY_DISABLED" ->
  env' !! "TELEMETRY_ENDPOINT" = env !! "KEYSTONE_TELEMETRY_ENDPOINT" ->
  env' !! "TELEMETRY_DEBUG" = env !! "KEYSTONE_TELEMETRY_DEBUG" ->
  locale env' = locale env ->
  let keystone := Keystone.sendTelemetryEvent rt eventType cwd dbProvider lists env in
  let v1 := V1.sendTelemetryEvent rt eventType cwd dbProvider lists env' in
  fetches (trace v1) = fetches (trace keystone) /\
  (env !! "KEYSTONE_TELEMETRY_DEBUG" <> Some "1" -> trace v1 = trace keystone).
Proof.
  intros Hdis Hend Hdbg Hlocale keystone v1. subst keystone v1.
  destruct (deviceInfo_reads_locale_only env' env Hlocale) as [Hdr Hdt].
  destruct (projectInfo_ignores_env cwd lists env' env) as [Hpr Hpt].
  split.
  - now rewrite V1_fetches, Keystone_fetches, Hdis, Hend, Hdbg, Hdr, Hpr.
  - intros Hnodebug. apply strict_eq_false in Hnodebug.
    rewrite V1_send_run, Keystone_send_run. unfold trace at 1 2; cbn [snd].
    rewrite Hdis, Hend, Hdbg, Hnodebug. unfold collect_then.
    now rewrite Hdr, Hdt, Hpr, Hpt.
Qed.

End Renaming.

(** X9, an instance: the endpoint override under its two names. *)
Lemma keystone_prefix_is_a_renaming_witness :
  let env : Env := {[ "KEYSTONE_TELEMETRY_ENDPOINT" := "https://keylemetry.com" ]} in
  let env' : Env := {[ "TELEMETRY_ENDPOINT" := "https://keylemetry.com" ]} in
  trace (V1.sendTelemetryEvent Mock.runtime "test-event" "path" (Some "mydb")
           (Some Mock.lists) env')
  = trace (Keystone.sendTelemetryEvent Mock.runtime "test-event" "path" (Some "mydb")
             (Some Mock.lists) env).
Proof.
  intros env env'.
  apply (keystone_prefix_is_a_renaming Mock.runtime env env' "test-event" "path"
           (Some "mydb") (Some Mock.lists)); try reflexivity.
  vm_compute. discriminate.
Defined.

(** ** The disable switch, the other way round *)

Section SwitchValue.

Context (rt : Runtime).

Lemma deviceInfo_asks_machine_first env :
  exists rest, trace (deviceInfo rt env) = EvMachineIdSync :: rest.
Proof.
  unfold deviceInfo, bind, perform, get_env, ret, trace.
  destruct (machineIdSync rt), (os_platform rt), (os_release rt); cbn [snd app];
    eexists; reflexivity.
Qed.

Lemma collect_then_starts {B} onThrow (project : M B) dispatch env :
  exists rest,
    collect_then onThrow (deviceInfo rt) project dispatch env = EvMachineIdSync :: rest.
Proof.
  unfold collect_then. destruct (deviceInfo_asks_machine_first env) as [rest ->].
  eexists. reflexivity.
Qed.

(** X10: only the switch value disables.  With the disable variable unset
    or holding anything else (["true"] or ["0"] where ["1"] is tested,
    ["1"] or ["yes"] where ["true"] is tested, the empty string), every
    version goes on to collect: the first thing it does is to read the
    machine id. *)
Theorem only_the_switch_value_disables (env : Env) :
  (env !! "KEYSTONE_TELEMETRY_DISABLED" <> Some "1" ->
   forall eventType cwd dbProvider lists,
   exists rest,
     trace (Keystone.sendTelemetryEvent rt eventType cwd dbProvider lists env)
     = EvMachineIdSync :: rest) /\
  (env !! "TELEMETRY_DISABLED" <> Some "1" ->
   forall eventType cwd dbProvider lists,
   exists rest,
     trace (V1.sendTelemetryEvent rt eventType cwd dbProvider lists env)
     = EvMachineIdSync :: rest) /\
  (env !! "TELEMETRY_DISABLED" <> Some "true" ->
   (forall schemaField eventType cwd dbProvider prismaSchema,
    exists rest,
      trace (Index.sendTelemetryEvent rt schemaField eventType cwd dbProvider
               prismaSchema env)
      = EvMachineIdSync :: rest) /\
   (forall ev environment cwd prismaSchema,
    exists rest,
      trace (Legacy.sendTelemetryEvent rt ev environment cwd prismaSchema env)
      = EvMachineIdSync :: rest) /\
   (forall importEnv ev environment cwd prismaSchema lists,
    exists rest,
      trace (LegacyLists.sendTelemetryEvent rt importEnv ev environment cwd prismaSchema
               lists env)
      = EvMachineIdSync :: rest)).
Proof.
  split; [|split].
  - intros Hdis eventType cwd dbProvider lists. apply strict_eq_false in Hdis.
    rewrite Keystone_send_run, Hdis. unfold trace; cbn [snd].
    apply collect_then_starts.
  - intros Hdis eventType cwd dbProvider lists. apply strict_eq_false in Hdis.
    rewrite V1_send_run, Hdis. unfold trace; cbn [snd].
    apply collect_then_starts.
  - intros Hdis. apply strict_eq_false in Hdis. split; [|split].
    + intros schemaField eventType cwd dbProvider prismaSchema.
      rewrite Index_send_run, Hdis. unfold trace; cbn [snd].
      apply collect_then_starts.
    + intros ev environment cwd prismaSchema.
      rewrite Legacy_send_run, Hdis. unfold trace at 1; cbn [snd].
      unfold Legacy.eventData, bind, perform, get_env, ret, trace, result.
      destruct (machineIdSync rt), (os_platform rt); cbn [fst snd app];
        eexists; reflexivity.
    + intros importEnv ev environment cwd prismaSchema lists.
      rewrite LegacyLists_send_run, Hdis. unfold trace at 1; cbn [snd].
      unfold LegacyLists.eventData, bind, perform, get_env, ret, trace, result.
      destruct (machineIdSync rt), (os_platform rt); cbn [fst snd app];
        eexists; reflexivity.
Qed.

End SwitchValue.

(** X10, an instance: [TELEMETRY_DISABLED=1] does not disable the version
    of index.ts, which tests for ["true"]. *)
Lemma only_the_switch_value_disables_witness :
  exists rest,
    trace (Index.sendTelemetryEvent Mock.runtime (fun _ => ("schema", VUndefined))
             "test-event" "path" (Some "mydb") None {[ "TELEMETRY_DISABLED" := "1" ]})
    = EvMachineIdSync :: rest.
Proof.
  refine (proj1 (proj2 (proj2 (only_the_switch_value_disables Mock.runtime
                                 {[ "TELEMETRY_DISABLED" := "1" ]})) _)
            (fun _ => ("schema", VUndefined)) "test-event" "path" (Some "mydb") None).
  vm_compute. discriminate.
Defined.

(** ** Debug mode *)

Section DebugMode.

Context (rt : Runtime).

(** X11: in debug mode the payload is handed to [console.log] as the
    object it is; it is not serialised and [fetch] is not called.  With
    the debug variable equal to ["1"], whatever [JSON.stringify] and
    [fetch] would do (throw included), the three versions with a debug
    switch return the same, call the same and log the same. *)
Theorem debug_mode_bypasses_serialisation (env : Env)
    (stringify1 stringify2 : value -> completion string)
    (fetch1 fetch2 : string -> RequestInit -> completion settled) :
  let rt1 := with_stringify (with_fetch rt fetch1) stringify1 in
  let rt2 := with_stringify (with_fetch rt fetch2) stringify2 in
  (env !! "KEYSTONE_TELEMETRY_DEBUG" = Some "1" ->
   forall eventType cwd dbProvider lists,
     Keystone.sendTelemetryEvent rt1 eventType cwd dbProvider lists env
     = Keystone.sendTelemetryEvent rt2 eventType cwd dbProvider lists env) /\
  (env !! "TELEMETRY_DEBUG" = Some "1" ->
   (forall eventType cwd dbProvider lists,
      V1.sendTelemetryEvent rt1 eventType cwd dbProvider lists env
      = V1.sendTelemetryEvent rt2 eventType cwd dbProvider lists env) /\
   (forall schemaField eventType cwd dbProvider prismaSchema,
      Index.sendTelemetryEvent rt1 schemaField eventType cwd dbProvider prismaSchema env
      = Index.sendTelemetryEvent rt2 schemaField eventType cwd dbProvider prismaSchema
          env)).
Proof.
  intros rt1 rt2. subst rt1 rt2. split.
  - intros Hdbg eventType cwd dbProvider lists. apply strict_eq_true in Hdbg.
    rewrite !Keystone_send_run. now rewrite Hdbg.
  - intros Hdbg. apply strict_eq_true in Hdbg. split.
    + intros eventType cwd dbProvider lists.
      rewrite !V1_send_run. now rewrite Hdbg.
    + intros schemaField eventType cwd dbProvider prismaSchema.
      rewrite !Index_send_run. now rewrite Hdbg.
Qed.

End DebugMode.

(** X11, an instance: a [JSON.stringify] that throws does not keep the
    payload from the console. *)
Lemma debug_mode_bypasses_serialisation_witness :
  let env : Env := {[ "KEYSTONE_TELEMETRY_DEBUG" := "1" ]} in
  let broken := with_stringify (with_fetch Mock.runtime (fetch Mock.runtime))
                  (fun _ => Throw (VStr "TypeError")) in
  logged (trace (Keystone.sendTelemetryEvent broken "test-event" "path" (Some "mydb")
                   (Some Mock.lists) env))
  = [ [VStr "[Telemetry]: https://telemetry.keystonejs.com/v1/event"];
      [VObj Mock.eventData] ].
Proof.
  intros env broken. subst broken.
  rewrite (proj1 (debug_mode_bypasses_serialisation Mock.runtime env
                    (fun _ => Throw (VStr "TypeError")) (JSON_stringify Mock.runtime)
                    (fetch Mock.runtime) (fetch Mock.runtime)) eq_refl).
  reflexivity.
Defined.

(** ** The route handler [getTasks] *)

Section TasksFacts.

Context (findMany : value -> completion settled) (json : value -> completion unit).

Lemma is_string_true x s : Tasks.is_string x s = true <-> x = VStr s.
Proof.
  destruct x; simpl; try (split; discriminate).
  rewrite String.eqb_eq. split; congruence.
Qed.

(** X12: [getTasks] filters on completion only when the [complete]
    parameter is exactly the string [true] or [false]; any other value
    (absent, [TRUE], [1], a repeated parameter) queries without a filter.
    It runs one query and sends the response only when the query
    resolved, with what it resolved to; when the query throws or rejects
    nothing is sent and the promise of the handler is rejected with that
    reason. *)
Theorem getTasks_filter_and_response (complete : value) :
  (forall b : bool,
     Tasks.isComplete complete = VObj [("equals", VBool b)]
     <-> complete = VStr (if b then "true" else "false")) /\
  (complete <> VStr "true" -> complete <> VStr "false" ->
   Tasks.isComplete complete = VUndefined) /\
  let run := Tasks.getTasks findMany json complete in
  let query := findMany (Tasks.findManyArgs complete) in
  (forall tasks,
     query = Normal (Fulfilled tasks) ->
     run = (json tasks, [Tasks.FindMany (Tasks.findManyArgs complete); Tasks.Json tasks])) /\
  (forall reason,
     query = Normal (Rejected reason) \/ query = Throw reason ->
     run = (Throw reason, [Tasks.FindMany (Tasks.findManyArgs complete)])).
Proof.
  split; [|split; [|split]].
  - intros b. unfold Tasks.isComplete.
    destruct (Tasks.is_string complete "true") eqn:Etrue.
    + apply is_string_true in Etrue. subst complete.
      destruct b; split; [reflexivity | reflexivity | discriminate | discriminate].
    + destruct (Tasks.is_string complete "false") eqn:Efalse.
      * apply is_string_true in Efalse. subst complete.
        destruct b; split; [discriminate | discriminate | reflexivity | reflexivity].
      * split; [discriminate|].
        intros ->. destruct b; simpl in *; discriminate.
  - intros Htrue Hfalse. unfold Tasks.isComplete.
    destruct (Tasks.is_string complete "true") eqn:Etrue;
      [apply is_string_true in Etrue; contradiction|].
    destruct (Tasks.is_string complete "false") eqn:Efalse;
      [apply is_string_true in Efalse; contradiction|].
    reflexivity.
  - intros tasks Hq. unfold Tasks.getTasks. now rewrite Hq.
  - intros reason [Hq | Hq]; unfold Tasks.getTasks; now rewrite Hq.
Qed.

End TasksFacts.

(** X12, an instance: [complete=TRUE] is no filter, and a query that
    rejects sends nothing. *)
Lemma getTasks_filter_and_response_witness :
  Tasks.isComplete (VStr "TRUE") = VUndefined /\
  Tasks.getTasks (fun _ => Normal (Rejected (VStr "database is down")))
    (fun _ => Normal tt) (VStr "TRUE")
  = (Throw (VStr "database is down"), [Tasks.FindMany (Tasks.findManyArgs (VStr "TRUE"))]).
Proof.
  destruct (getTasks_filter_and_response
              (fun _ => Normal (Rejected (VStr "database is down")))
              (fun _ => Normal tt) (VStr "TRUE")) as (_ & Hnone & _ & Hfail).
  split.
  - apply Hnone; discriminate.
  - apply Hfail. now left.
Defined.
